(** * EfficientDet prior boxes (examples/efficientdet/anchors.py)

    A shallow embedding of the anchor-box generation module of paz and the
    properties its specification states about it.

    Numbers.  The module computes with NumPy float64 values.  They are
    modelled by [f64]: a finite value carries an exact real number (rounding
    and overflow of finite operations are not modelled, and there is a
    single zero), while the three special values +inf, -inf and nan follow
    the IEEE rules NumPy applies (a division by zero or a square root of a
    negative number gives a special value and a warning, never an
    exception).  The properties stated about the module are of the kinds
    that rounding does not decide: counts, shapes, order and exceptions,
    values written as the module's own operations on its inputs, values that
    binary64 holds exactly (integers up to [2^53], powers of two, halves),
    and strict bounds for inputs of moderate size.

    Errors.  Python exceptions are modelled by the [result] type; the
    exception classes are those NumPy and Python raise. *)

From Stdlib Require Import Reals List ZArith Lia Lra Psatz Bool.
Import ListNotations.

Open Scope Z_scope.

(** ** Exceptions *)

Inductive exn : Type := ValueError | IndexError | TypeError.

Inductive result (A : Type) : Type :=
| Ok (a : A)
| Raise (e : exn).

Arguments Ok {A} a.
Arguments Raise {A} e.

Definition bind {A B : Type} (m : result A) (k : A -> result B) : result B :=
  match m with
  | Ok a => k a
  | Raise e => Raise e
  end.

Notation "x <- m ;; k" := (bind m (fun x => k))
  (at level 61, m at next level, right associativity).
Notation "' p <- m ;; k" := (bind m (fun p => k))
  (at level 61, p pattern, m at next level, right associativity).

(** A Python [for] loop that appends one computed element per iteration. *)
Fixpoint for_each {A B : Type} (f : A -> result B) (l : list A)
  : result (list B) :=
  match l with
  | [] => Ok []
  | a :: l' => b <- f a ;; bs <- for_each f l' ;; Ok (b :: bs)
  end.

Definition is_ok {A : Type} (m : result A) : bool :=
  match m with Ok _ => true | Raise _ => false end.

(** ** Floating-point values *)

Inductive f64 : Type :=
| Fin (r : R)
| PInf
| NInf
| NaN.

Definition of_int (z : Z) : f64 := Fin (IZR z).

Definition is_finite (a : f64) : Prop :=
  match a with Fin _ => True | _ => False end.

Definition fneg (a : f64) : f64 :=
  match a with
  | Fin x => Fin (- x)
  | PInf => NInf
  | NInf => PInf
  | NaN => NaN
  end.

Definition fadd (a b : f64) : f64 :=
  match a, b with
  | NaN, _ | _, NaN => NaN
  | Fin x, Fin y => Fin (x + y)
  | PInf, NInf | NInf, PInf => NaN
  | PInf, _ | _, PInf => PInf
  | NInf, _ | _, NInf => NInf
  end.

Definition fsub (a b : f64) : f64 := fadd a (fneg b).

(** The infinity whose sign is the sign of [x], nan at zero. *)
Definition signed_inf (x : R) : f64 :=
  if Req_dec_T x 0 then NaN
  else if Rlt_dec 0 x then PInf else NInf.

Definition fmul (a b : f64) : f64 :=
  match a, b with
  | NaN, _ | _, NaN => NaN
  | Fin x, Fin y => Fin (x * y)
  | Fin x, PInf | PInf, Fin x => signed_inf x
  | Fin x, NInf | NInf, Fin x => signed_inf (- x)
  | PInf, PInf | NInf, NInf => PInf
  | PInf, NInf | NInf, PInf => NInf
  end.

Definition fdiv (a b : f64) : f64 :=
  match a, b with
  | NaN, _ | _, NaN => NaN
  | Fin x, Fin y => if Req_dec_T y 0 then signed_inf x else Fin (x / y)
  | Fin _, _ => Fin 0
  | PInf, Fin y => if Rlt_dec y 0 then NInf else PInf
  | NInf, Fin y => if Rlt_dec y 0 then PInf else NInf
  | _, _ => NaN
  end.

(** [np.sqrt] *)
Definition fsqrt (a : f64) : f64 :=
  match a with
  | Fin x => if Rlt_dec x 0 then NaN else Fin (sqrt x)
  | PInf => PInf
  | NInf => NaN
  | NaN => NaN
  end.

(** [2 ** a] *)
Definition fpow2 (a : f64) : f64 :=
  match a with
  | Fin x => Fin (Rpower 2 x)
  | PInf => PInf
  | NInf => Fin 0
  | NaN => NaN
  end.

(** [np.reciprocal] on a float array element. *)
Definition np_reciprocal (a : f64) : f64 := fdiv (Fin 1) a.

(** Smallest integer not below [x]. *)
Definition Rceil (x : R) : Z := 1 - up (- x).

(** ** NumPy and Python primitives used by the module *)

(** [range(n)] *)
Definition py_range (n : Z) : list nat := seq 0 (Z.to_nat n).

(** [a[i]] for a non-negative index. *)
Definition index {A : Type} (l : list A) (i : nat) : result A :=
  match nth_error l i with
  | Some a => Ok a
  | None => Raise IndexError
  end.

(** Bound of a Python slice: negative bounds count from the end, and the
    result is clipped to the sequence. *)
Definition slice_bound (n i : Z) : Z :=
  Z.max 0 (Z.min n (if i <? 0 then i + n else i)).

(** [l[start:stop]] *)
Definition py_slice {A : Type} (l : list A) (start stop : Z) : list A :=
  let n := Z.of_nat (length l) in
  let s := slice_bound n start in
  let e := slice_bound n stop in
  firstn (Z.to_nat (e - s)) (skipn (Z.to_nat s) l).

(** [np.repeat(l, n)]: every element [n] times in place.  The count is
    applied element by element, so a negative count is refused only where
    there is an element to repeat: an empty array comes back empty. *)
Definition np_repeat {A : Type} (l : list A) (n : Z) : result (list A) :=
  match l with
  | [] => Ok []
  | _ => if n <? 0 then Raise ValueError
         else Ok (flat_map (fun a => repeat a (Z.to_nat n)) l)
  end.

(** [np.tile(l, n)]: the whole array [n] times; a negative count is refused
    by the inner repeat, which an empty array does not reach. *)
Definition np_tile {A : Type} (l : list A) (n : Z) : result (list A) :=
  match l with
  | [] => Ok []
  | _ => if n <? 0 then Raise ValueError
         else Ok (concat (repeat l (Z.to_nat n)))
  end.

(** [k] rows of [w] elements taken from [l] in order. *)
Fixpoint chunks {A : Type} (k w : nat) (l : list A) : list (list A) :=
  match k with
  | O => []
  | S k' => firstn w l :: chunks k' w (skipn w l)
  end.

(** [l.reshape(n, -1)]: the row count must be positive (with a zero row
    count the free dimension cannot be computed) and must divide the size. *)
Definition np_reshape_rows {A : Type} (l : list A) (n : Z)
  : result (list (list A)) :=
  let size := Z.of_nat (length l) in
  if n <=? 0 then Raise ValueError
  else if size mod n =? 0
       then Ok (chunks (Z.to_nat n) (Z.to_nat (size / n)) l)
       else Raise ValueError.

(** [np.arange(start, stop, step)] on floats: the length is the ceiling of
    [(stop - start) / step], which must be a number.  The quotient is the
    exact one; NumPy takes the ceiling of the rounded quotient, which can
    differ by one point for a stride that binary64 does not hold exactly. *)
Definition np_arange (start stop step : f64) : result (list f64) :=
  match fdiv (fsub stop start) step with
  | Fin d =>
      Ok (map (fun i => fadd start (fmul (Fin (IZR (Z.of_nat i))) step))
              (seq 0 (Z.to_nat (Rceil d))))
  | _ => Raise ValueError
  end.

(** [np.meshgrid(x, y)]: two arrays of [len(y)] rows and [len(x)] columns. *)
Definition np_meshgrid {A : Type} (x y : list A)
  : list (list A) * list (list A) :=
  (map (fun _ => x) y, map (fun yi => map (fun _ => yi) x) y).

(** [a.reshape(-1)] of a two-dimensional array. *)
Definition flatten {A : Type} (a : list (list A)) : list A := concat a.

(** ** Feature sizes *)

(** The array built by [compute_feature_sizes]: of shape (2,) before the
    first [np.vstack], of shape (n, 2) after it.  Its float64 entries are
    integers and are kept as such; float64 holds them exactly up to a
    magnitude of [2^53]. *)
Inductive feature_array : Type :=
| Flat (hw : Z * Z)
| Rows (rows : list (Z * Z)).

(** [np.vstack((feature_sizes, feature_size))] *)
Definition np_vstack_row (a : feature_array) (row : Z * Z) : feature_array :=
  match a with
  | Flat hw => Rows [hw; row]
  | Rows rows => Rows (rows ++ [row])
  end.

Fixpoint feature_loop (n : nat) (feature_H feature_W : Z)
    (feature_sizes : feature_array) : feature_array :=
  match n with
  | O => feature_sizes
  | S n' =>
      let feature_H := (feature_H - 1) / 2 + 1 in
      let feature_W := (feature_W - 1) / 2 + 1 in
      feature_loop n' feature_H feature_W
        (np_vstack_row feature_sizes (feature_H, feature_W))
  end.

Definition compute_feature_sizes (image_size : Z * Z) (max_level : Z)
  : feature_array :=
  let '(feature_H, feature_W) := image_size in
  feature_loop (Z.to_nat max_level) feature_H feature_W
    (Flat (feature_H, feature_W)).

(** ** Configurations *)

Definition build_features (feature_sizes : feature_array)
    (min_level max_level scale_aspect_ratio_combinations : Z)
  : result (list Z * list Z) :=
  match feature_sizes with
  | Flat _ => Raise IndexError
  | Rows rows =>
      let feature_H := map fst (py_slice rows min_level (max_level + 1)) in
      let feature_W := map snd (py_slice rows min_level (max_level + 1)) in
      features_H <- np_repeat feature_H scale_aspect_ratio_combinations ;;
      features_W <- np_repeat feature_W scale_aspect_ratio_combinations ;;
      Ok (features_H, features_W)
  end.

Definition build_strides (feature_sizes : feature_array)
    (features_H features_W : list Z) (num_levels : Z)
  : result (list (list f64) * list (list f64)) :=
  match feature_sizes with
  | Flat _ => Raise TypeError
  | Rows [] => Raise IndexError
  | Rows ((base_feature_H, base_feature_W) :: _) =>
      strides_y <- np_reshape_rows
        (map (fun f => fmul (of_int base_feature_H) (np_reciprocal (of_int f)))
             features_H) num_levels ;;
      strides_x <- np_reshape_rows
        (map (fun f => fmul (of_int base_feature_W) (np_reciprocal (of_int f)))
             features_W) num_levels ;;
      Ok (strides_y, strides_x)
  end.

Definition build_octaves (num_scales : Z) (aspect_ratios : list f64)
    (num_levels : Z) : result (list (list f64)) :=
  scale_octaves <- np_repeat (py_range num_scales)
                     (Z.of_nat (length aspect_ratios)) ;;
  tiled <- np_tile scale_octaves num_levels ;;
  np_reshape_rows
    (map (fun o => fdiv (of_int (Z.of_nat o)) (of_int num_scales)) tiled)
    num_levels.

Definition build_aspects (aspect_ratios : list f64) (num_scales num_levels : Z)
  : result (list (list f64)) :=
  aspect <- np_tile aspect_ratios
              (Z.of_nat (length (py_range num_scales))) ;;
  tiled <- np_tile aspect num_levels ;;
  np_reshape_rows tiled num_levels.

Definition build_scales (anchor_scale : list f64)
    (scale_aspect_ratio_combinations num_levels : Z)
  : result (list (list f64)) :=
  repeated <- np_repeat anchor_scale scale_aspect_ratio_combinations ;;
  np_reshape_rows repeated num_levels.

(** The five parallel arrays indexed by level and combination. *)
Record configuration : Type := {
  cfg_strides_y : list (list f64);
  cfg_strides_x : list (list f64);
  cfg_octave_scales : list (list f64);
  cfg_aspects : list (list f64);
  cfg_anchor_scales : list (list f64)
}.

Definition generate_configurations (feature_sizes : feature_array)
    (min_level max_level num_scales : Z) (aspect_ratios : list f64)
    (anchor_scale : list f64) : result (configuration * Z * Z) :=
  let num_levels := max_level + 1 - min_level in
  let scale_aspect_ratio_combinations :=
    Z.of_nat (length (py_range num_scales))
    * Z.of_nat (length aspect_ratios) in
  '(features_H, features_W) <- build_features feature_sizes min_level
      max_level scale_aspect_ratio_combinations ;;
  octave_scales <- build_octaves num_scales aspect_ratios num_levels ;;
  aspects <- build_aspects aspect_ratios num_scales num_levels ;;
  '(strides_y, strides_x) <- build_strides feature_sizes features_H
      features_W num_levels ;;
  anchor_scales <- build_scales anchor_scale
      scale_aspect_ratio_combinations num_levels ;;
  Ok ({| cfg_strides_y := strides_y; cfg_strides_x := strides_x;
         cfg_octave_scales := octave_scales; cfg_aspects := aspects;
         cfg_anchor_scales := anchor_scales |},
      num_levels, scale_aspect_ratio_combinations).

(** ** Box geometry *)

Definition compute_aspect_ratio (aspect : f64) : f64 * f64 :=
  let aspect_x := fsqrt aspect in
  let aspect_y := fdiv (Fin 1) aspect_x in
  (aspect_x, aspect_y).

Definition compute_box_coordinates (stride_y stride_x octave_scale aspect
    anchor_scale : f64) (image_size : Z * Z)
  : result (list f64 * list f64 * f64 * f64) :=
  let '(W, H) := image_size in
  let base_anchor_x := fmul (fmul anchor_scale stride_x) (fpow2 octave_scale) in
  let base_anchor_y := fmul (fmul anchor_scale stride_y) (fpow2 octave_scale) in
  let '(aspect_x, aspect_y) := compute_aspect_ratio aspect in
  let anchor_x := fdiv (fdiv (fmul base_anchor_x aspect_x) (Fin 2)) (of_int H) in
  let anchor_y := fdiv (fdiv (fmul base_anchor_y aspect_y) (Fin 2)) (of_int W) in
  x <- np_arange (fdiv stride_x (Fin 2)) (of_int H) stride_x ;;
  y <- np_arange (fdiv stride_y (Fin 2)) (of_int W) stride_y ;;
  let '(center_x, center_y) := np_meshgrid x y in
  let center_x := map (fun v => fdiv v (of_int H)) (flatten center_x) in
  let center_y := map (fun v => fdiv v (of_int W)) (flatten center_y) in
  Ok (center_x, center_y, anchor_x, anchor_y).

(** A row of an (N, 4) array. *)
Definition box : Type := f64 * f64 * f64 * f64.

(** [np.swapaxes(np.vstack((center_x - anchor_x, center_y - anchor_y,
    center_x + anchor_x, center_y + anchor_y)), 0, 1)]; the two center
    arrays come from one meshgrid and have the same length. *)
Definition corner_rows (center_x center_y : list f64) (anchor_x anchor_y : f64)
  : list box :=
  map (fun '(cx, cy) =>
         (fsub cx anchor_x, fsub cy anchor_y,
          fadd cx anchor_x, fadd cy anchor_y))
      (combine center_x center_y).

(** [np.expand_dims(boxes, axis=1)] *)
Definition np_expand_dims {A : Type} (rows : list A) : list (list A) :=
  map (fun b => [b]) rows.

Definition generate_level_boxes (strides_y strides_x octave_scales aspects
    anchor_scales : list f64) (image_size : Z * Z)
    (scale_aspect_ratio_combinations : Z) : result (list (list (list box))) :=
  for_each
    (fun combination =>
       stride_y <- index strides_y combination ;;
       stride_x <- index strides_x combination ;;
       octave_scale <- index octave_scales combination ;;
       aspect <- index aspects combination ;;
       anchor_scale <- index anchor_scales combination ;;
       '(center_x, center_y, anchor_x, anchor_y) <-
         compute_box_coordinates stride_y stride_x octave_scale aspect
           anchor_scale image_size ;;
       let boxes := corner_rows center_x center_y anchor_x anchor_y in
       Ok (np_expand_dims boxes))
    (py_range scale_aspect_ratio_combinations).

(** Rows of [a] extended by the rows of [b]. *)
Fixpoint zip_app {A : Type} (a b : list (list A)) : list (list A) :=
  match a, b with
  | r :: a', s :: b' => (r ++ s) :: zip_app a' b'
  | _, _ => []
  end.

Fixpoint join_axis1 {A : Type} (a : list (list A)) (rest : list (list (list A)))
  : list (list A) :=
  match rest with
  | [] => a
  | b :: rest' => zip_app a (join_axis1 b rest')
  end.

(** [np.concatenate(arrays, axis=1)]: at least one array, all with the same
    number of rows. *)
Definition np_concatenate_axis1 {A : Type} (arrays : list (list (list A)))
  : result (list (list A)) :=
  match arrays with
  | [] => Raise ValueError
  | a :: rest =>
      if forallb (fun b => Nat.eqb (length b) (length a)) rest
      then Ok (join_axis1 a rest)
      else Raise ValueError
  end.

(** [np.vstack(arrays)] of arrays of four columns: at least one array. *)
Definition np_vstack {A : Type} (arrays : list (list A)) : result (list A) :=
  match arrays with
  | [] => Raise ValueError
  | _ => Ok (concat arrays)
  end.

(** The result is cast with [astype('float32')]; the cast is the identity
    of the model, which keeps the number and the order of the boxes and
    leaves the rounding of their coordinates out. *)
Definition generate_anchors (feature_sizes : feature_array)
    (min_level max_level num_scales : Z) (aspect_ratios : list f64)
    (image_size : Z * Z) (anchor_scales : list f64) : result (list box) :=
  '(cfg, num_levels, scale_aspect_ratio_combinations) <-
    generate_configurations feature_sizes min_level max_level num_scales
      aspect_ratios anchor_scales ;;
  boxes_all <- for_each
    (fun level =>
       sy <- index (cfg_strides_y cfg) level ;;
       sx <- index (cfg_strides_x cfg) level ;;
       oc <- index (cfg_octave_scales cfg) level ;;
       ar <- index (cfg_aspects cfg) level ;;
       sc <- index (cfg_anchor_scales cfg) level ;;
       boxes_level <- generate_level_boxes sy sx oc ar sc image_size
                        scale_aspect_ratio_combinations ;;
       boxes_level <- np_concatenate_axis1 boxes_level ;;
       Ok (flatten boxes_level))
    (py_range num_levels) ;;
  np_vstack boxes_all.

(** Modelled from the spec: [paz.backend.boxes.to_center_form] is imported
    by the module and is not part of it.  The specification describes it as
    the conversion from corner form (min corner, max corner) to center form
    (cx, cy, w, h). *)
Definition to_center_form_box (b : box) : box :=
  let '(x_min, y_min, x_max, y_max) := b in
  (fdiv (fadd x_max x_min) (Fin 2), fdiv (fadd y_max y_min) (Fin 2),
   fsub x_max x_min, fsub y_max y_min).

Definition to_center_form (boxes : list box) : list box :=
  map to_center_form_box boxes.

Definition build_prior_boxes (min_level max_level num_scales : Z)
    (aspect_ratios : list f64) (anchor_scale : f64) (image_size : Z * Z)
  : result (list box) :=
  anchor_scales <- np_repeat [anchor_scale] (max_level - min_level + 1) ;;
  let feature_sizes := compute_feature_sizes image_size max_level in
  prior_boxes <- generate_anchors feature_sizes min_level max_level
                   num_scales aspect_ratios image_size anchor_scales ;;
  Ok (to_center_form prior_boxes).

(** ** The anchor set as nested loops

    The specification describes the anchor set by its order: levels first,
    grid positions next (rows of the grid first), combinations last, the
    combinations running over the scales and, for every scale, over the
    aspect ratios.  The definitions below follow that description and are
    compared with the array code above. *)

Definition downsample (x : Z) : Z := (x - 1) / 2 + 1.

(** Feature extent at a level: [level] downsamplings of the image extent. *)
Definition feature_at (level : nat) (x : Z) : Z := Nat.iter level downsample x.

(** Stride of a level along one dimension. *)
Definition stride_of (base feature : Z) : f64 :=
  fmul (of_int base) (np_reciprocal (of_int feature)).

(** The scale and aspect combinations of one level, scale-major. *)
Definition combinations (num_scales : Z) (aspect_ratios : list f64)
  : list (f64 * f64) :=
  flat_map (fun s => map (fun a => (fdiv (of_int (Z.of_nat s)) (of_int num_scales), a))
                         aspect_ratios)
           (py_range num_scales).

(** Centers of the cells of a grid with [n] points along one dimension. *)
Definition axis_centers (stride : f64) (n : nat) : list f64 :=
  map (fun i => fadd (fdiv stride (Fin 2)) (fmul (Fin (IZR (Z.of_nat i))) stride))
      (seq 0 n).

(** Normalized centers [(center_x, center_y)] of a grid, row by row. *)
Definition grid_centers (xs ys : list f64) (W H : Z) : list (f64 * f64) :=
  flat_map (fun y => map (fun x => (fdiv x (of_int H), fdiv y (of_int W))) xs) ys.

(** Half extent of a box along one dimension. *)
Definition half_extent (anchor_scale stride octave_scale aspect_factor : f64)
    (extent : Z) : f64 :=
  fdiv (fdiv (fmul (fmul (fmul anchor_scale stride) (fpow2 octave_scale))
                   aspect_factor) (Fin 2))
       (of_int extent).

Definition corner_box (center : f64 * f64) (anchor_x anchor_y : f64) : box :=
  let '(cx, cy) := center in
  (fsub cx anchor_x, fsub cy anchor_y, fadd cx anchor_x, fadd cy anchor_y).

(** Corner-form boxes of one level: for every grid position, one box per
    combination. *)
Definition level_boxes (num_scales : Z) (aspect_ratios : list f64)
    (anchor_scale : f64) (image_size : Z * Z) (level : nat) : list box :=
  let '(W, H) := image_size in
  let feature_H := feature_at level W in
  let feature_W := feature_at level H in
  let stride_y := stride_of W feature_H in
  let stride_x := stride_of H feature_W in
  flat_map
    (fun center =>
       map (fun '(octave_scale, aspect) =>
              corner_box center
                (half_extent anchor_scale stride_x octave_scale
                   (fst (compute_aspect_ratio aspect)) H)
                (half_extent anchor_scale stride_y octave_scale
                   (snd (compute_aspect_ratio aspect)) W))
           (combinations num_scales aspect_ratios))
    (grid_centers (axis_centers stride_x (Z.to_nat feature_W))
                  (axis_centers stride_y (Z.to_nat feature_H)) W H).

(** The levels [min_level .. max_level]. *)
Definition levels (min_level max_level : Z) : list nat :=
  seq (Z.to_nat min_level) (Z.to_nat (max_level + 1 - min_level)).

(** The whole anchor set in corner form, level by level. *)
Definition corner_anchors (min_level max_level num_scales : Z)
    (aspect_ratios : list f64) (anchor_scale : f64) (image_size : Z * Z)
  : list box :=
  flat_map (level_boxes num_scales aspect_ratios anchor_scale image_size)
           (levels min_level max_level).

(** Number of grid points of a level. *)
Definition grid_points (image_size : Z * Z) (level : nat) : Z :=
  feature_at level (fst image_size) * feature_at level (snd image_size).

(** Sum of an integer list. *)
Definition zsum (l : list Z) : Z := fold_right Z.add 0 l.

(** A box all of whose coordinates are numbers. *)
Definition box_finite (b : box) : Prop :=
  let '(a, b, c, d) := b in
  is_finite a /\ is_finite b /\ is_finite c /\ is_finite d.

(** The octave row of a level: every scale once per aspect ratio. *)
Definition octave_row (num_scales : Z) (aspect_ratios : list f64) : list f64 :=
  map (fun o => fdiv (of_int (Z.of_nat o)) (of_int num_scales))
      (concat (map (fun s => repeat s (length aspect_ratios))
                   (py_range num_scales))).

(** The aspect row of a level: the aspect ratios once per scale. *)
Definition aspect_row (num_scales : Z) (aspect_ratios : list f64) : list f64 :=
  concat (repeat aspect_ratios (length (py_range num_scales))).



(** Number of boxes of a level. *)
Definition level_size (num_scales : Z) (aspect_ratios : list f64)
    (image_size : Z * Z) (level : nat) : nat :=
  (Z.to_nat (grid_points image_size level)
   * (Z.to_nat num_scales * length aspect_ratios))%nat.

(** Position of the first box of the level number [p] of a request. *)
Definition level_offset (num_scales : Z) (aspect_ratios : list f64)
    (image_size : Z * Z) (min_level : Z) (p : nat) : nat :=
  list_sum (map (level_size num_scales aspect_ratios image_size)
                (seq (Z.to_nat min_level) p)).

(** * Properties *)

(** Case analysis on the comparisons of the special-value rules. *)
Ltac f64_cases :=
  simpl; unfold signed_inf;
  repeat match goal with
         | |- context [Req_dec_T ?x ?y] => destruct (Req_dec_T x y)
         | |- context [Rlt_dec ?x ?y] => destruct (Rlt_dec x y)
         end;
  simpl; try tauto.


(** ** The result monad and loops *)

Lemma for_each_ext_in {A B : Type} (f g : A -> result B) (l : list A) :
  (forall a, In a l -> f a = g a) -> for_each f l = for_each g l.
Proof.
  induction l as [|a l IH]; intros Hfg; simpl; [reflexivity|].
  rewrite (Hfg a (or_introl eq_refl)).
  rewrite IH; [reflexivity|]. intros b Hb. apply Hfg. now right.
Qed.

Lemma for_each_pure {A B : Type} (h : A -> B) (l : list A) :
  for_each (fun a => Ok (h a)) l = Ok (map h l).
Proof.
  induction l as [|a l IH]; simpl; [reflexivity|]. now rewrite IH.
Qed.

Lemma is_ok_bind_false {A B : Type} (m : result A) (k : A -> result B) :
  (forall a, m = Ok a -> is_ok (k a) = false) -> is_ok (bind m k) = false.
Proof. destruct m as [a|e]; simpl; auto. Qed.

Lemma index_nth {A : Type} (l : list A) (i : nat) (d : A) :
  (i < length l)%nat -> index l i = Ok (nth i l d).
Proof.
  intros Hi. unfold index.
  destruct (nth_error l i) as [a|] eqn:E.
  - f_equal. symmetry. now apply nth_error_nth.
  - apply nth_error_None in E. lia.
Qed.

Lemma index_repeat {A : Type} (a : A) (n i : nat) :
  (i < n)%nat -> index (repeat a n) i = Ok a.
Proof.
  intros Hi. rewrite (index_nth _ _ a) by now rewrite repeat_length.
  f_equal. apply nth_repeat.
Qed.

Lemma index_map_seq {A : Type} (g : nat -> A) (s n i : nat) :
  (i < n)%nat -> index (map g (seq s n)) i = Ok (g (s + i)%nat).
Proof.
  intros Hi. rewrite (index_nth _ _ (g 0%nat)) by now rewrite length_map, length_seq.
  f_equal. rewrite (map_nth g (seq s n) 0%nat i). now rewrite seq_nth.
Qed.

(** ** Lists, reshapes and slices *)

Lemma length_concat_uniform {A : Type} (rows : list (list A)) (w : nat) :
  Forall (fun r => length r = w) rows ->
  length (concat rows) = (length rows * w)%nat.
Proof.
  induction 1 as [|r rows Hr _ IH]; simpl; [reflexivity|].
  rewrite length_app, IH, Hr. reflexivity.
Qed.

Lemma chunks_concat {A : Type} (rows : list (list A)) (w : nat) :
  Forall (fun r => length r = w) rows ->
  chunks (length rows) w (concat rows) = rows.
Proof.
  induction 1 as [|r rows Hr _ IH]; simpl; [reflexivity|].
  subst w. rewrite firstn_app, Nat.sub_diag, firstn_O, app_nil_r, firstn_all.
  rewrite skipn_app, Nat.sub_diag, skipn_all. simpl. now rewrite IH.
Qed.

Lemma np_reshape_rows_concat {A : Type} (rows : list (list A)) (w : nat) (n : Z) :
  n = Z.of_nat (length rows) -> 0 < n ->
  Forall (fun r => length r = w) rows ->
  np_reshape_rows (concat rows) n = Ok rows.
Proof.
  intros -> Hpos Hrows. unfold np_reshape_rows.
  rewrite (length_concat_uniform rows w Hrows).
  destruct (Z.leb_spec (Z.of_nat (length rows)) 0) as [Hle|_]; [lia|].
  rewrite Nat2Z.inj_mul.
  replace (Z.of_nat (length rows) * Z.of_nat w)
    with (Z.of_nat w * Z.of_nat (length rows)) by lia.
  rewrite Z.mod_mul by lia. simpl.
  rewrite Z.div_mul by lia. rewrite !Nat2Z.id.
  now rewrite chunks_concat.
Qed.

Lemma np_reshape_rows_zero {A : Type} (l : list A) (n : Z) :
  n <= 0 -> np_reshape_rows l n = Raise ValueError.
Proof.
  intros Hn. unfold np_reshape_rows.
  destruct (Z.leb_spec n 0); [reflexivity|lia].
Qed.

Lemma np_repeat_ok {A : Type} (l : list A) (n : Z) :
  0 <= n -> np_repeat l n = Ok (concat (map (fun a => repeat a (Z.to_nat n)) l)).
Proof.
  intros Hn. unfold np_repeat. destruct l as [|a l]; [reflexivity|].
  destruct (Z.ltb_spec n 0); [lia|]. now rewrite flat_map_concat_map.
Qed.

Lemma concat_repeat_nil {A : Type} (n : nat) : concat (repeat (@nil A) n) = [].
Proof. induction n; simpl; auto. Qed.

Lemma np_tile_ok {A : Type} (l : list A) (n : Z) :
  0 <= n -> np_tile l n = Ok (concat (repeat l (Z.to_nat n))).
Proof.
  intros Hn. unfold np_tile. destruct l as [|a l].
  - now rewrite concat_repeat_nil.
  - destruct (Z.ltb_spec n 0); [lia|reflexivity].
Qed.

Lemma Forall_repeat {A : Type} (P : A -> Prop) (a : A) (n : nat) :
  P a -> Forall P (repeat a n).
Proof. intros Ha. induction n; simpl; constructor; auto. Qed.

Lemma Forall_map_const {A B : Type} (P : B -> Prop) (g : A -> B) (l : list A) :
  (forall a, P (g a)) -> Forall P (map g l).
Proof. intros Hg. induction l; simpl; constructor; auto. Qed.

Lemma map_concat_repeat {A B : Type} (f : A -> B) (l : list A) (n : nat) :
  map f (concat (repeat l n)) = concat (repeat (map f l) n).
Proof. now rewrite concat_map, map_repeat. Qed.

Lemma firstn_seq_le (n s m : nat) :
  (n <= m)%nat -> firstn n (seq s m) = seq s n.
Proof.
  revert s m. induction n as [|n IH]; intros s m Hn; [reflexivity|].
  destruct m as [|m]; [lia|]. simpl. rewrite IH by lia. reflexivity.
Qed.

Lemma seq_offset (s n : nat) : seq s n = map (Nat.add s) (seq 0 n).
Proof.
  induction s as [|s IH]; simpl.
  - now rewrite map_id.
  - rewrite <- seq_shift, IH, map_map. reflexivity.
Qed.

Lemma py_slice_map_seq {A : Type} (g : nat -> A) (m : nat) (a b : Z) :
  0 <= a <= b -> b <= Z.of_nat m ->
  py_slice (map g (seq 0 m)) a b = map g (seq (Z.to_nat a) (Z.to_nat (b - a))).
Proof.
  intros Hab Hb. unfold py_slice, slice_bound.
  rewrite length_map, length_seq.
  destruct (Z.ltb_spec a 0); [lia|]. destruct (Z.ltb_spec b 0); [lia|].
  rewrite !Z.min_r, !Z.max_r by lia.
  rewrite skipn_map, firstn_map, skipn_seq, firstn_seq_le by lia.
  reflexivity.
Qed.

(** ** Feature sizes *)

Lemma feature_loop_rows (n k : nat) (H W : Z) (rows : list (Z * Z)) :
  feature_loop n (feature_at k H) (feature_at k W) (Rows rows) =
  Rows (rows ++ map (fun j => (feature_at j H, feature_at j W)) (seq (S k) n)).
Proof.
  revert k rows. induction n as [|n IH]; intros k rows; simpl.
  - now rewrite app_nil_r.
  - change ((feature_at k H - 1) / 2 + 1) with (feature_at (S k) H).
    change ((feature_at k W - 1) / 2 + 1) with (feature_at (S k) W).
    rewrite IH. now rewrite <- app_assoc.
Qed.

Lemma compute_feature_sizes_rows (H W : Z) (max_level : Z) :
  1 <= max_level ->
  compute_feature_sizes (H, W) max_level =
  Rows (map (fun j => (feature_at j H, feature_at j W))
            (seq 0 (S (Z.to_nat max_level)))).
Proof.
  intros Hl. unfold compute_feature_sizes.
  destruct (Z.to_nat max_level) as [|n] eqn:E; [lia|].
  cbn [feature_loop np_vstack_row].
  change ((H - 1) / 2 + 1) with (feature_at 1 H).
  change ((W - 1) / 2 + 1) with (feature_at 1 W).
  rewrite feature_loop_rows. reflexivity.
Qed.

Lemma compute_feature_sizes_flat (image_size : Z * Z) (max_level : Z) :
  max_level <= 0 ->
  compute_feature_sizes image_size max_level = Flat image_size.
Proof.
  intros Hl. destruct image_size as [H W]. unfold compute_feature_sizes.
  replace (Z.to_nat max_level) with 0%nat by lia. reflexivity.
Qed.

Lemma downsample_pos (x : Z) : 1 <= x -> 1 <= downsample x.
Proof.
  intros Hx. unfold downsample.
  assert (0 <= (x - 1) / 2) by (apply Z.div_pos; lia). lia.
Qed.

Lemma feature_at_pos (k : nat) (x : Z) : 1 <= x -> 1 <= feature_at k x.
Proof.
  intros Hx. induction k as [|k IH]; simpl; [exact Hx|].
  now apply downsample_pos.
Qed.

(** ** Arithmetic of finite values *)

Open Scope R_scope.

Lemma fdiv_fin (x y : R) : y <> 0 -> fdiv (Fin x) (Fin y) = Fin (x / y).
Proof.
  intros Hy. simpl. destruct (Req_dec_T y 0); [contradiction|reflexivity].
Qed.

Lemma fsqrt_fin (x : R) : 0 <= x -> fsqrt (Fin x) = Fin (sqrt x).
Proof.
  intros Hx. simpl. destruct (Rlt_dec x 0); [lra|reflexivity].
Qed.

Lemma fsqrt_neg (x : R) : x < 0 -> fsqrt (Fin x) = NaN.
Proof.
  intros Hx. simpl. destruct (Rlt_dec x 0); [reflexivity|lra].
Qed.

Lemma Rceil_unique (x : R) (z : Z) :
  IZR z - 1 < x -> x <= IZR z -> Rceil x = z.
Proof.
  intros Hlo Hhi. unfold Rceil.
  assert (E : (1 - z)%Z = up (- x)).
  { apply tech_up; rewrite minus_IZR; lra. }
  rewrite <- E. lia.
Qed.

Lemma Rceil_bounds (x : R) : IZR (Rceil x) - 1 < x <= IZR (Rceil x).
Proof.
  unfold Rceil. destruct (archimed (- x)) as [H1 H2].
  rewrite minus_IZR. lra.
Qed.

Lemma IZR_pos (z : Z) : (1 <= z)%Z -> 1 <= IZR z.
Proof. intros Hz. now apply IZR_le. Qed.

Lemma stride_of_fin (base feature : Z) :
  (feature <> 0)%Z ->
  stride_of base feature = Fin (IZR base * (1 / IZR feature)).
Proof.
  intros Hf. unfold stride_of, np_reciprocal, of_int.
  rewrite fdiv_fin; [reflexivity|]. now apply not_0_IZR.
Qed.

Lemma np_arange_fin (s : R) (extent : Z) :
  s <> 0 ->
  np_arange (fdiv (Fin s) (Fin 2)) (of_int extent) (Fin s) =
  Ok (axis_centers (Fin s)
        (Z.to_nat (Rceil ((IZR extent + - (s / 2)) / s)))).
Proof.
  intros Hs. unfold np_arange, axis_centers, of_int.
  rewrite (fdiv_fin s 2) by lra.
  cbn [fsub fneg fadd]. rewrite fdiv_fin by exact Hs. reflexivity.
Qed.

(** Along a dimension of extent [base] the grid of a level has as many
    points as the feature map. *)
Lemma np_arange_level (base feature : Z) :
  (1 <= base)%Z -> (1 <= feature)%Z ->
  np_arange (fdiv (stride_of base feature) (Fin 2)) (of_int base)
            (stride_of base feature) =
  Ok (axis_centers (stride_of base feature) (Z.to_nat feature)).
Proof.
  intros Hb Hf. rewrite stride_of_fin by lia.
  apply IZR_pos in Hb. pose proof (IZR_pos _ Hf) as Hf'.
  assert (Hs : IZR base * (1 / IZR feature) <> 0).
  { apply Rmult_integral_contrapositive_currified; [lra|].
    unfold Rdiv. rewrite Rmult_1_l. apply Rinv_neq_0_compat. lra. }
  rewrite np_arange_fin by exact Hs.
  do 3 f_equal. apply Rceil_unique.
  - replace ((IZR base + - (IZR base * (1 / IZR feature) / 2))
             / (IZR base * (1 / IZR feature)))
      with (IZR feature - / 2) by (field; lra).
    lra.
  - replace ((IZR base + - (IZR base * (1 / IZR feature) / 2))
             / (IZR base * (1 / IZR feature)))
      with (IZR feature - / 2) by (field; lra).
    lra.
Qed.

Close Scope R_scope.

(** ** The grid and the boxes of one combination *)

Lemma combine_app_same {A B : Type} (a b : list A) (c d : list B) :
  length a = length c ->
  combine (a ++ b) (c ++ d) = combine a c ++ combine b d.
Proof.
  revert c. induction a as [|x a IH]; intros [|y c] Hlen; simpl in *;
    try discriminate; [reflexivity|].
  rewrite IH by lia. reflexivity.
Qed.

Lemma combine_map_const {A B C : Type} (f : A -> B) (v : C) (l : list A) :
  combine (map f l) (map (fun _ => v) l) = map (fun a => (f a, v)) l.
Proof. induction l as [|a l IH]; simpl; [reflexivity|]. now rewrite IH. Qed.

Lemma meshgrid_centers (x y : list f64) (W H : Z) :
  let '(center_x, center_y) := np_meshgrid x y in
  combine (map (fun v => fdiv v (of_int H)) (flatten center_x))
          (map (fun v => fdiv v (of_int W)) (flatten center_y))
  = grid_centers x y W H.
Proof.
  unfold np_meshgrid, flatten, grid_centers.
  induction y as [|yi y IH]; simpl; [reflexivity|].
  rewrite !map_app, combine_app_same by now rewrite !length_map.
  rewrite IH. f_equal.
  rewrite map_map. rewrite combine_map_const. reflexivity.
Qed.

Lemma corner_rows_grid (x y : list f64) (W H : Z) (anchor_x anchor_y : f64) :
  corner_rows (map (fun v => fdiv v (of_int H)) (flatten (fst (np_meshgrid x y))))
              (map (fun v => fdiv v (of_int W)) (flatten (snd (np_meshgrid x y))))
              anchor_x anchor_y
  = map (fun center => corner_box center anchor_x anchor_y)
        (grid_centers x y W H).
Proof.
  unfold corner_rows. pose proof (meshgrid_centers x y W H) as E.
  destruct (np_meshgrid x y) as [cx cy]. simpl. rewrite E.
  apply map_ext. intros [a b]. reflexivity.
Qed.

(** [compute_box_coordinates] on the strides of a level. *)
Lemma compute_box_coordinates_level (W H feature_H feature_W : Z)
    (octave_scale aspect anchor_scale : f64) :
  1 <= W -> 1 <= H -> 1 <= feature_H -> 1 <= feature_W ->
  let stride_y := stride_of W feature_H in
  let stride_x := stride_of H feature_W in
  let x := axis_centers stride_x (Z.to_nat feature_W) in
  let y := axis_centers stride_y (Z.to_nat feature_H) in
  compute_box_coordinates stride_y stride_x octave_scale aspect anchor_scale
    (W, H) =
  Ok (map (fun v => fdiv v (of_int H)) (flatten (fst (np_meshgrid x y))),
      map (fun v => fdiv v (of_int W)) (flatten (snd (np_meshgrid x y))),
      half_extent anchor_scale stride_x octave_scale
        (fst (compute_aspect_ratio aspect)) H,
      half_extent anchor_scale stride_y octave_scale
        (snd (compute_aspect_ratio aspect)) W).
Proof.
  intros HW HH HfH HfW. cbv zeta. unfold compute_box_coordinates.
  rewrite (np_arange_level H feature_W) by assumption.
  rewrite (np_arange_level W feature_H) by assumption.
  reflexivity.
Qed.

Lemma map_nth_combine {A B C : Type} (G : A -> B -> C) (l1 : list A)
    (l2 : list B) (d1 : A) (d2 : B) :
  length l1 = length l2 ->
  map (fun c => G (nth c l1 d1) (nth c l2 d2)) (seq 0 (length l1)) =
  map (fun '(a, b) => G a b) (combine l1 l2).
Proof.
  revert l2. induction l1 as [|a l1 IH]; intros [|b l2] Hlen; simpl in *;
    try discriminate; [reflexivity|].
  f_equal. rewrite <- seq_shift, map_map. simpl. apply IH. lia.
Qed.

Lemma combine_scale_major {A B C : Type} (f : A -> C) (S : list A) (l : list B) :
  combine (map f (concat (map (fun s => repeat s (length l)) S)))
          (concat (repeat l (length S)))
  = flat_map (fun s => map (fun a => (f s, a)) l) S.
Proof.
  induction S as [|s S IH]; simpl; [reflexivity|].
  rewrite map_app, combine_app_same
    by now rewrite length_map, repeat_length.
  rewrite IH. f_equal.
  rewrite map_repeat. clear IH.
  generalize (f s). intros v. induction l as [|b l IHl]; simpl; [reflexivity|].
  now rewrite IHl.
Qed.

Lemma zip_app_columns {A B : Type} (h : B -> A) (k : B -> list A) (grid : list B) :
  zip_app (np_expand_dims (map h grid)) (map k grid) =
  map (fun p => h p :: k p) grid.
Proof.
  induction grid as [|p grid IH]; simpl; [reflexivity|]. now rewrite <- IH.
Qed.

Lemma join_axis1_columns {A B C : Type} (g : C -> B -> A) (grid : list B)
    (c0 : C) (cs : list C) :
  join_axis1 (np_expand_dims (map (g c0) grid))
             (map (fun c => np_expand_dims (map (g c) grid)) cs)
  = map (fun p => map (fun c => g c p) (c0 :: cs)) grid.
Proof.
  revert c0. induction cs as [|c1 cs IH]; intros c0; simpl.
  - unfold np_expand_dims. now rewrite map_map.
  - rewrite IH. apply zip_app_columns.
Qed.

Lemma np_concatenate_axis1_columns {A B C : Type} (g : C -> B -> A)
    (grid : list B) (cs : list C) :
  cs <> [] ->
  np_concatenate_axis1 (map (fun c => np_expand_dims (map (g c) grid)) cs)
  = Ok (map (fun p => map (fun c => g c p) cs) grid).
Proof.
  destruct cs as [|c0 cs]; [congruence|]. intros _. simpl.
  replace (forallb _ _) with true.
  - now rewrite join_axis1_columns.
  - symmetry. apply forallb_forall. intros b Hb.
    apply in_map_iff in Hb. destruct Hb as [c [<- _]].
    unfold np_expand_dims. rewrite !length_map. apply Nat.eqb_refl.
Qed.

(** One level: the rows of the configuration are constant in the strides
    and the anchor scale, and list the combinations scale-major. *)
Lemma generate_level_boxes_level (W H feature_H feature_W : Z)
    (octaves ratios : list f64) (anchor_scale : f64) :
  1 <= W -> 1 <= H -> 1 <= feature_H -> 1 <= feature_W ->
  length octaves = length ratios ->
  let n := length octaves in
  let stride_y := stride_of W feature_H in
  let stride_x := stride_of H feature_W in
  generate_level_boxes (repeat stride_y n) (repeat stride_x n) octaves ratios
    (repeat anchor_scale n) (W, H) (Z.of_nat n) =
  Ok (map (fun '(octave_scale, aspect) =>
             np_expand_dims
               (map (fun center =>
                       corner_box center
                         (half_extent anchor_scale stride_x octave_scale
                            (fst (compute_aspect_ratio aspect)) H)
                         (half_extent anchor_scale stride_y octave_scale
                            (snd (compute_aspect_ratio aspect)) W))
                    (grid_centers
                       (axis_centers stride_x (Z.to_nat feature_W))
                       (axis_centers stride_y (Z.to_nat feature_H)) W H)))
          (combine octaves ratios)).
Proof.
  intros HW HH HfH HfW Hlen n stride_y stride_x.
  unfold generate_level_boxes, py_range. rewrite Nat2Z.id.
  rewrite <- (map_nth_combine
                (fun octave_scale aspect =>
                   np_expand_dims
                     (map (fun center =>
                             corner_box center
                               (half_extent anchor_scale stride_x octave_scale
                                  (fst (compute_aspect_ratio aspect)) H)
                               (half_extent anchor_scale stride_y octave_scale
                                  (snd (compute_aspect_ratio aspect)) W))
                          (grid_centers
                             (axis_centers stride_x (Z.to_nat feature_W))
                             (axis_centers stride_y (Z.to_nat feature_H)) W H)))
                octaves ratios NaN NaN Hlen).
  rewrite <- for_each_pure. apply for_each_ext_in.
  intros c Hc. apply in_seq in Hc. fold n in Hc.
  rewrite !index_repeat by lia. cbn [bind].
  rewrite (index_nth octaves c NaN) by (fold n; lia).
  rewrite (index_nth ratios c NaN) by (rewrite <- Hlen; fold n; lia).
  cbn [bind].
  unfold stride_y, stride_x.
  rewrite (compute_box_coordinates_level W H feature_H feature_W) by assumption.
  cbn [bind]. rewrite corner_rows_grid. reflexivity.
Qed.

(** ** The configuration of a valid request *)

Lemma np_reshape_rows_repeat {A : Type} (row : list A) (n : Z) :
  0 < n ->
  np_reshape_rows (concat (repeat row (Z.to_nat n))) n =
  Ok (repeat row (Z.to_nat n)).
Proof.
  intros Hn. apply (np_reshape_rows_concat _ (length row)).
  - rewrite repeat_length. lia.
  - exact Hn.
  - now apply Forall_repeat.
Qed.

Lemma np_reshape_rows_map {A B : Type} (g : B -> list A) (l : list B)
    (w : nat) (n : Z) :
  n = Z.of_nat (length l) -> 0 < n -> (forall b, length (g b) = w) ->
  np_reshape_rows (concat (map g l)) n = Ok (map g l).
Proof.
  intros Hn Hpos Hg. apply (np_reshape_rows_concat _ w).
  - now rewrite length_map.
  - exact Hpos.
  - now apply Forall_map_const.
Qed.

Lemma build_octaves_rows (num_scales : Z) (aspect_ratios : list f64)
    (num_levels : Z) :
  0 < num_levels ->
  build_octaves num_scales aspect_ratios num_levels =
  Ok (repeat (octave_row num_scales aspect_ratios) (Z.to_nat num_levels)).
Proof.
  intros Hn. unfold build_octaves.
  rewrite np_repeat_ok by lia. cbn [bind].
  rewrite np_tile_ok by lia. cbn [bind].
  rewrite map_concat_repeat, Nat2Z.id.
  now apply np_reshape_rows_repeat.
Qed.

Lemma build_aspects_rows (aspect_ratios : list f64) (num_scales num_levels : Z) :
  0 < num_levels ->
  build_aspects aspect_ratios num_scales num_levels =
  Ok (repeat (aspect_row num_scales aspect_ratios) (Z.to_nat num_levels)).
Proof.
  intros Hn. unfold build_aspects.
  rewrite np_tile_ok by lia. cbn [bind].
  rewrite np_tile_ok by lia. cbn [bind].
  rewrite Nat2Z.id. now apply np_reshape_rows_repeat.
Qed.

Lemma build_scales_rows (anchor_scale : f64) (combinations_count num_levels : Z) :
  0 < num_levels -> 0 <= combinations_count ->
  build_scales (repeat anchor_scale (Z.to_nat num_levels)) combinations_count
    num_levels =
  Ok (repeat (repeat anchor_scale (Z.to_nat combinations_count))
             (Z.to_nat num_levels)).
Proof.
  intros Hn Hc. unfold build_scales.
  rewrite np_repeat_ok by lia. cbn [bind].
  rewrite map_repeat. now apply np_reshape_rows_repeat.
Qed.

Lemma build_features_rows (W H min_level max_level combinations_count : Z) :
  0 <= min_level <= max_level -> 1 <= max_level -> 0 <= combinations_count ->
  build_features (compute_feature_sizes (W, H) max_level) min_level max_level
    combinations_count =
  Ok (concat (map (fun k => repeat (feature_at k W) (Z.to_nat combinations_count))
                  (levels min_level max_level)),
      concat (map (fun k => repeat (feature_at k H) (Z.to_nat combinations_count))
                  (levels min_level max_level))).
Proof.
  intros Hlv Hmax Hc. rewrite compute_feature_sizes_rows by exact Hmax.
  unfold build_features.
  rewrite py_slice_map_seq by lia.
  rewrite !np_repeat_ok by lia. cbn [bind].
  rewrite !map_map. reflexivity.
Qed.

Lemma build_strides_rows (W H max_level num_levels : Z) (lv : list nat)
    (w : nat) :
  1 <= max_level -> num_levels = Z.of_nat (length lv) -> 0 < num_levels ->
  build_strides (compute_feature_sizes (W, H) max_level)
    (concat (map (fun k => repeat (feature_at k W) w) lv))
    (concat (map (fun k => repeat (feature_at k H) w) lv)) num_levels =
  Ok (map (fun k => repeat (stride_of W (feature_at k W)) w) lv,
      map (fun k => repeat (stride_of H (feature_at k H)) w) lv).
Proof.
  intros Hmax Hn Hpos. rewrite compute_feature_sizes_rows by exact Hmax.
  unfold build_strides. cbn [seq map feature_at Nat.iter nat_rect].
  rewrite !concat_map, !map_map.
  assert (E : forall base,
             map (fun k => map (fun f => fmul (of_int base) (np_reciprocal (of_int f)))
                               (repeat (feature_at k base) w)) lv
             = map (fun k => repeat (stride_of base (feature_at k base)) w) lv).
  { intros base. apply map_ext. intros k. now rewrite map_repeat. }
  rewrite !E.
  rewrite (np_reshape_rows_map _ lv w) by
    (auto; intros; apply repeat_length).
  cbn [bind].
  rewrite (np_reshape_rows_map _ lv w) by
    (auto; intros; apply repeat_length).
  reflexivity.
Qed.

Lemma length_octave_row (num_scales : Z) (aspect_ratios : list f64) :
  length (octave_row num_scales aspect_ratios) =
  (length (py_range num_scales) * length aspect_ratios)%nat.
Proof.
  unfold octave_row. rewrite length_map.
  rewrite (length_concat_uniform _ (length aspect_ratios)).
  - now rewrite length_map.
  - apply Forall_map_const. intros s. apply repeat_length.
Qed.

Lemma length_aspect_row (num_scales : Z) (aspect_ratios : list f64) :
  length (aspect_row num_scales aspect_ratios) =
  (length (py_range num_scales) * length aspect_ratios)%nat.
Proof.
  unfold aspect_row.
  rewrite (length_concat_uniform _ (length aspect_ratios))
    by now apply Forall_repeat.
  now rewrite repeat_length.
Qed.

Lemma combine_rows (num_scales : Z) (aspect_ratios : list f64) :
  combine (octave_row num_scales aspect_ratios)
          (aspect_row num_scales aspect_ratios)
  = combinations num_scales aspect_ratios.
Proof. apply combine_scale_major. Qed.

Lemma length_combinations (num_scales : Z) (aspect_ratios : list f64) :
  length (combinations num_scales aspect_ratios) =
  (Z.to_nat num_scales * length aspect_ratios)%nat.
Proof.
  rewrite <- combine_rows, length_combine, length_octave_row, length_aspect_row.
  unfold py_range. rewrite length_seq. lia.
Qed.

Lemma generate_configurations_rows (W H min_level max_level num_scales : Z)
    (aspect_ratios : list f64) (anchor_scale : f64) :
  0 <= min_level <= max_level -> 1 <= max_level ->
  let num_levels := max_level + 1 - min_level in
  let count := (length (py_range num_scales) * length aspect_ratios)%nat in
  generate_configurations (compute_feature_sizes (W, H) max_level) min_level
    max_level num_scales aspect_ratios
    (repeat anchor_scale (Z.to_nat num_levels)) =
  Ok ({| cfg_strides_y :=
           map (fun k => repeat (stride_of W (feature_at k W)) count)
               (levels min_level max_level);
         cfg_strides_x :=
           map (fun k => repeat (stride_of H (feature_at k H)) count)
               (levels min_level max_level);
         cfg_octave_scales :=
           repeat (octave_row num_scales aspect_ratios) (Z.to_nat num_levels);
         cfg_aspects :=
           repeat (aspect_row num_scales aspect_ratios) (Z.to_nat num_levels);
         cfg_anchor_scales :=
           repeat (repeat anchor_scale count) (Z.to_nat num_levels) |},
      num_levels, Z.of_nat count).
Proof.
  intros Hlv Hmax num_levels count. unfold generate_configurations.
  fold num_levels. rewrite <- Nat2Z.inj_mul. fold count.
  rewrite build_features_rows by lia. cbn [bind].
  rewrite build_octaves_rows by (unfold num_levels; lia). cbn [bind].
  rewrite build_aspects_rows by (unfold num_levels; lia). cbn [bind].
  rewrite Nat2Z.id.
  rewrite (build_strides_rows W H max_level num_levels) by
    (try assumption; unfold levels, num_levels; rewrite ?length_seq; lia).
  cbn [bind].
  rewrite <- (Nat2Z.id count) at 3.
  rewrite build_scales_rows by (unfold num_levels; lia).
  cbn [bind]. rewrite Nat2Z.id. reflexivity.
Qed.

(** The corner-form anchors of a valid request are the nested loops. *)
Lemma generate_anchors_loops (W H min_level max_level num_scales : Z)
    (aspect_ratios : list f64) (anchor_scale : f64) :
  0 <= min_level <= max_level -> 1 <= max_level -> 1 <= num_scales ->
  aspect_ratios <> [] -> 1 <= W -> 1 <= H ->
  generate_anchors (compute_feature_sizes (W, H) max_level) min_level
    max_level num_scales aspect_ratios (W, H)
    (repeat anchor_scale (Z.to_nat (max_level + 1 - min_level))) =
  Ok (corner_anchors min_level max_level num_scales aspect_ratios
        anchor_scale (W, H)).
Proof.
  intros Hlv Hmax Hns Hne HW HH. unfold generate_anchors.
  rewrite generate_configurations_rows by assumption. cbn [bind].
  cbn [cfg_strides_y cfg_strides_x cfg_octave_scales cfg_aspects
       cfg_anchor_scales].
  set (n := Z.to_nat (max_level + 1 - min_level)).
  set (count := (length (py_range num_scales) * length aspect_ratios)%nat).
  assert (Hcomb : combinations num_scales aspect_ratios <> []).
  { intros E. apply (f_equal (@length _)) in E.
    rewrite length_combinations in E. simpl in E.
    destruct aspect_ratios; [congruence|]. simpl in E. nia. }
  rewrite (for_each_ext_in _
             (fun level => Ok (level_boxes num_scales aspect_ratios
                                 anchor_scale (W, H)
                                 (Z.to_nat min_level + level)%nat))).
  - rewrite for_each_pure. unfold py_range. fold n.
    unfold np_vstack, corner_anchors, levels. fold n.
    destruct n as [|n'] eqn:En; [unfold n in En; lia|].
    rewrite <- En. rewrite flat_map_concat_map.
    rewrite (seq_offset (Z.to_nat min_level) n), map_map.
    destruct (map _ (seq 0 n)) eqn:Em.
    + subst n. rewrite En in Em. discriminate.
    + reflexivity.
  - intros level Hin. unfold py_range in Hin. apply in_seq in Hin. fold n in Hin.
    unfold levels. fold n.
    rewrite !index_map_seq by lia. rewrite !index_repeat by lia.
    cbn [bind].
    pose proof (generate_level_boxes_level W H
                  (feature_at (Z.to_nat min_level + level) W)
                  (feature_at (Z.to_nat min_level + level) H)
                  (octave_row num_scales aspect_ratios)
                  (aspect_row num_scales aspect_ratios) anchor_scale
                  HW HH (feature_at_pos _ _ HW) (feature_at_pos _ _ HH)) as E.
    rewrite length_octave_row, length_aspect_row in E.
    specialize (E eq_refl). cbv zeta in E. fold count in E.
    rewrite E. cbn [bind]. clear E.
    rewrite combine_rows.
    pose (g := fun (c : f64 * f64) (center : f64 * f64) =>
                 corner_box center
                   (half_extent anchor_scale
                      (stride_of H (feature_at (Z.to_nat min_level + level) H))
                      (fst c) (fst (compute_aspect_ratio (snd c))) H)
                   (half_extent anchor_scale
                      (stride_of W (feature_at (Z.to_nat min_level + level) W))
                      (fst c) (snd (compute_aspect_ratio (snd c))) W)).
    rewrite (map_ext _ (fun c => np_expand_dims
                          (map (g c)
                             (grid_centers
                                (axis_centers
                                   (stride_of H (feature_at (Z.to_nat min_level + level) H))
                                   (Z.to_nat (feature_at (Z.to_nat min_level + level) H)))
                                (axis_centers
                                   (stride_of W (feature_at (Z.to_nat min_level + level) W))
                                   (Z.to_nat (feature_at (Z.to_nat min_level + level) W)))
                                W H))))
      by (intros [o a]; reflexivity).
    rewrite np_concatenate_axis1_columns by exact Hcomb.
    cbn [bind]. unfold flatten, level_boxes.
    rewrite flat_map_concat_map. do 2 f_equal.
    apply map_ext. intros center. apply map_ext. intros [o a]. reflexivity.
Qed.

(** A valid request returns the nested loops in center form. *)
Lemma build_prior_boxes_loops (min_level max_level num_scales : Z)
    (aspect_ratios : list f64) (anchor_scale : f64) (image_size : Z * Z) :
  0 <= min_level <= max_level -> 1 <= max_level -> 1 <= num_scales ->
  aspect_ratios <> [] -> 1 <= fst image_size -> 1 <= snd image_size ->
  build_prior_boxes min_level max_level num_scales aspect_ratios anchor_scale
    image_size =
  Ok (to_center_form
        (corner_anchors min_level max_level num_scales aspect_ratios
           anchor_scale image_size)).
Proof.
  destruct image_size as [W H]. simpl fst. simpl snd.
  intros Hlv Hmax Hns Hne HW HH. unfold build_prior_boxes.
  rewrite np_repeat_ok by lia. cbn [bind map concat]. rewrite app_nil_r.
  replace (max_level - min_level + 1) with (max_level + 1 - min_level) by lia.
  rewrite generate_anchors_loops by assumption. reflexivity.
Qed.

(** ** Counting *)

Lemma length_grid_centers (xs ys : list f64) (W H : Z) :
  length (grid_centers xs ys W H) = (length ys * length xs)%nat.
Proof.
  unfold grid_centers. rewrite flat_map_concat_map.
  rewrite (length_concat_uniform _ (length xs)).
  - now rewrite length_map.
  - apply Forall_map_const. intros y. apply length_map.
Qed.

Lemma length_axis_centers (stride : f64) (n : nat) :
  length (axis_centers stride n) = n.
Proof. unfold axis_centers. now rewrite length_map, length_seq. Qed.

Lemma length_level_boxes (num_scales : Z) (aspect_ratios : list f64)
    (anchor_scale : f64) (image_size : Z * Z) (level : nat) :
  1 <= fst image_size -> 1 <= snd image_size -> 0 <= num_scales ->
  Z.of_nat (length (level_boxes num_scales aspect_ratios anchor_scale
                      image_size level)) =
  grid_points image_size level * num_scales * Z.of_nat (length aspect_ratios).
Proof.
  destruct image_size as [W H]. simpl fst. simpl snd. intros HW HH Hns.
  unfold level_boxes, grid_points. simpl fst. simpl snd.
  rewrite flat_map_concat_map.
  rewrite (length_concat_uniform _ (length (combinations num_scales aspect_ratios))).
  - rewrite length_map, length_grid_centers, !length_axis_centers.
    rewrite length_combinations.
    pose proof (feature_at_pos level W HW).
    pose proof (feature_at_pos level H HH).
    rewrite !Nat2Z.inj_mul, !Z2Nat.id by lia. ring.
  - apply Forall_map_const. intros c. apply length_map.
Qed.

Lemma length_flat_map_zsum {A B : Type} (f : A -> list B) (l : list A) :
  Z.of_nat (length (flat_map f l)) =
  zsum (map (fun a => Z.of_nat (length (f a))) l).
Proof.
  induction l as [|a l IH]; simpl; [reflexivity|].
  rewrite length_app, Nat2Z.inj_add, IH. reflexivity.
Qed.

Lemma length_corner_anchors (min_level max_level num_scales : Z)
    (aspect_ratios : list f64) (anchor_scale : f64) (image_size : Z * Z) :
  1 <= fst image_size -> 1 <= snd image_size -> 0 <= num_scales ->
  Z.of_nat (length (corner_anchors min_level max_level num_scales
                      aspect_ratios anchor_scale image_size)) =
  zsum (map (fun level =>
               grid_points image_size level * num_scales
               * Z.of_nat (length aspect_ratios))
            (levels min_level max_level)).
Proof.
  intros HW HH Hns. unfold corner_anchors.
  rewrite length_flat_map_zsum. f_equal. apply map_ext.
  intros level. now apply length_level_boxes.
Qed.

(** * The claims of the specification *)

(** C1 (amended).  For levels [0 <= min_level <= max_level] with
    [max_level >= 1], at least one scale, a non-empty list of aspect ratios
    and positive image dimensions, [build_prior_boxes] returns an array
    whose number of boxes is the sum over the levels of (grid points of the
    level) x [num_scales] x [len(aspect_ratios)].  For the image (512, 512),
    levels 3 to 7, three scales, aspect ratios 1, 2 and 1/2 and anchor scale
    4, the feature size at level 3 is (64, 64), there are 9 combinations and
    49104 boxes. *)
Theorem anchor_count :
  (forall (min_level max_level num_scales : Z) (aspect_ratios : list f64)
          (anchor_scale : f64) (image_size : Z * Z),
      0 <= min_level <= max_level -> 1 <= max_level -> 1 <= num_scales ->
      aspect_ratios <> [] -> 1 <= fst image_size -> 1 <= snd image_size ->
      exists boxes,
        build_prior_boxes min_level max_level num_scales aspect_ratios
          anchor_scale image_size = Ok boxes /\
        Z.of_nat (length boxes) =
        zsum (map (fun level =>
                     grid_points image_size level * num_scales
                     * Z.of_nat (length aspect_ratios))
                  (levels min_level max_level)))
  /\ (feature_at 3 512, feature_at 3 512) = (64, 64)
  /\ length (combinations 3 [Fin 1; Fin 2; Fin (1 / 2)]) = 9%nat
  /\ zsum (map (fun level => grid_points (512, 512) level * 3 * 3)
               (levels 3 7)) = 49104
  /\ exists boxes,
       build_prior_boxes 3 7 3 [Fin 1; Fin 2; Fin (1 / 2)] (Fin 4) (512, 512)
       = Ok boxes /\ Z.of_nat (length boxes) = 49104.
Proof.
  assert (G : forall (min_level max_level num_scales : Z)
                     (aspect_ratios : list f64) (anchor_scale : f64)
                     (image_size : Z * Z),
             0 <= min_level <= max_level -> 1 <= max_level -> 1 <= num_scales ->
             aspect_ratios <> [] -> 1 <= fst image_size -> 1 <= snd image_size ->
             exists boxes,
               build_prior_boxes min_level max_level num_scales aspect_ratios
                 anchor_scale image_size = Ok boxes /\
               Z.of_nat (length boxes) =
               zsum (map (fun level =>
                            grid_points image_size level * num_scales
                            * Z.of_nat (length aspect_ratios))
                         (levels min_level max_level))).
  { intros min_level max_level num_scales aspect_ratios anchor_scale image_size
           Hlv Hmax Hns Hne HW HH.
    eexists. split.
    - now apply build_prior_boxes_loops.
    - unfold to_center_form. rewrite length_map.
      apply length_corner_anchors; lia. }
  split; [exact G|].
  split; [reflexivity|].
  split; [reflexivity|].
  split; [reflexivity|].
  destruct (G 3 7 3 [Fin 1; Fin 2; Fin (1 / 2)]%R (Fin 4) (512, 512))
    as [boxes [E L]]; simpl; try lia; try discriminate.
  exists boxes. split; [exact E|].
  rewrite L. reflexivity.
Qed.

Lemma anchor_count_witness :
  exists boxes,
    build_prior_boxes 1 2 1 [Fin 1] (Fin 4) (4, 4) = Ok boxes /\
    Z.of_nat (length boxes) = 5.
Proof.
  apply (proj1 anchor_count 1 2 1 [Fin 1] (Fin 4) (4, 4)); simpl;
    solve [lia | discriminate].
Defined.

(** C1 as stated also admits a negative [min_level]; the slice of the
    feature sizes then has fewer rows than there are levels and the
    reshape of the strides is refused. *)
Lemma negative_min_level_raises :
  -1 <= 1 /\ 1 <= 1 /\ [Fin 1] <> [] /\
  build_prior_boxes (-1) 1 1 [Fin 1] (Fin 4) (4, 4) = Raise ValueError.
Proof.
  split; [lia|]. split; [lia|]. split; [discriminate|]. reflexivity.
Qed.

(** C4 (failing input).  With [max_level = 0] the loop body never runs and
    the result is the flat array [H, W] of shape (2,), not a sequence of one
    (height, width) pair. *)
Theorem compute_feature_sizes_level0 :
  compute_feature_sizes (300, 300) 0 = Flat (300, 300) /\
  forall rows, compute_feature_sizes (300, 300) 0 <> Rows rows.
Proof. split; [reflexivity|]. intros rows. discriminate. Qed.

(** From one level on, the feature sizes are [max_level + 1] pairs, the
    first the image size and each next one the downsampling
    [(old - 1) // 2 + 1] of the one before. *)
Lemma compute_feature_sizes_recursion (H W max_level : Z) :
  1 <= max_level ->
  exists rows,
    compute_feature_sizes (H, W) max_level = Rows rows /\
    Z.of_nat (length rows) = max_level + 1 /\
    nth_error rows 0 = Some (H, W) /\
    forall (k : nat) (h w : Z),
      nth_error rows k = Some (h, w) -> (S k < length rows)%nat ->
      nth_error rows (S k) = Some ((h - 1) / 2 + 1, (w - 1) / 2 + 1).
Proof.
  intros Hl. eexists. split; [now apply compute_feature_sizes_rows|].
  rewrite length_map, length_seq. split; [lia|]. split; [reflexivity|].
  intros k h w Hk Hlt.
  rewrite nth_error_map in Hk |- *.
  rewrite nth_error_seq in Hk |- *.
  destruct (Nat.ltb_spec k (S (Z.to_nat max_level))); [|lia].
  destruct (Nat.ltb_spec (S k) (S (Z.to_nat max_level))); [|lia].
  simpl in Hk |- *. injection Hk as <- <-. reflexivity.
Qed.

Example compute_feature_sizes_300 :
  compute_feature_sizes (300, 300) 1 = Rows [(300, 300); (150, 150)].
Proof. reflexivity. Qed.

(** ** Reversed level ranges *)

Lemma build_octaves_reversed (num_scales : Z) (aspect_ratios : list f64)
    (num_levels : Z) :
  num_levels <= 0 ->
  build_octaves num_scales aspect_ratios num_levels = Raise ValueError.
Proof.
  intros Hn. unfold build_octaves.
  rewrite np_repeat_ok by lia. cbn [bind]. unfold np_tile.
  destruct (concat _) as [|o l].
  - cbn [bind]. now apply np_reshape_rows_zero.
  - destruct (num_levels <? 0); [reflexivity|].
    cbn [bind]. now apply np_reshape_rows_zero.
Qed.

Lemma build_features_raises (feature_sizes : feature_array)
    (min_level max_level count : Z) (e : exn) :
  build_features feature_sizes min_level max_level count = Raise e ->
  e = ValueError \/ e = IndexError.
Proof.
  unfold build_features, np_repeat. destruct feature_sizes as [hw|rows].
  - intros [= <-]. now right.
  - destruct (map fst _) as [|h hs]; cbn [bind].
    + destruct (map snd _) as [|w ws]; cbn [bind]; [discriminate|].
      destruct (count <? 0); cbn [bind]; intros [= <-]. now left.
    + destruct (count <? 0); cbn [bind]; [intros [= <-]; now left|].
      destruct (map snd _) as [|w ws]; cbn [bind]; discriminate.
Qed.

Lemma generate_configurations_reversed (feature_sizes : feature_array)
    (min_level max_level num_scales : Z) (aspect_ratios anchor_scale : list f64) :
  max_level < min_level ->
  generate_configurations feature_sizes min_level max_level num_scales
    aspect_ratios anchor_scale = Raise ValueError \/
  generate_configurations feature_sizes min_level max_level num_scales
    aspect_ratios anchor_scale = Raise IndexError.
Proof.
  intros Hlt. unfold generate_configurations.
  destruct (build_features _ _ _ _) as [[fH fW]|e] eqn:E; cbn [bind].
  - rewrite build_octaves_reversed by lia. now left.
  - apply build_features_raises in E. destruct E as [-> | ->]; auto.
Qed.

(** C5 (amended).  A request with [max_level < min_level] never yields an
    anchor set: [generate_configurations] and [build_prior_boxes] both end
    in an exception, which is a [ValueError] or an [IndexError] of the array
    library and not an error of a check of the level range. *)
Theorem reversed_levels_raise (min_level max_level num_scales : Z)
    (aspect_ratios : list f64) (anchor_scale : f64) (image_size : Z * Z) :
  max_level < min_level ->
  (build_prior_boxes min_level max_level num_scales aspect_ratios anchor_scale
     image_size = Raise ValueError \/
   build_prior_boxes min_level max_level num_scales aspect_ratios anchor_scale
     image_size = Raise IndexError) /\
  (forall feature_sizes anchor_scales,
      is_ok (generate_configurations feature_sizes min_level max_level
               num_scales aspect_ratios anchor_scales) = false).
Proof.
  intros Hlt. split.
  - unfold build_prior_boxes, np_repeat.
    destruct (max_level - min_level + 1 <? 0); cbn [bind]; [now left|].
    cbn [bind]. unfold generate_anchors.
    destruct (generate_configurations_reversed
                (compute_feature_sizes image_size max_level) min_level
                max_level num_scales aspect_ratios
                (flat_map (fun a => repeat a (Z.to_nat (max_level - min_level + 1)))
                          [anchor_scale]) Hlt) as [E|E];
      rewrite E; cbn [bind]; auto.
  - intros feature_sizes anchor_scales.
    destruct (generate_configurations_reversed feature_sizes min_level
                max_level num_scales aspect_ratios anchor_scales Hlt) as [E|E];
      now rewrite E.
Qed.

Lemma reversed_levels_raise_witness :
  build_prior_boxes 7 3 3 [Fin 1; Fin 2] (Fin 4) (512, 512) = Raise ValueError \/
  build_prior_boxes 7 3 3 [Fin 1; Fin 2] (Fin 4) (512, 512) = Raise IndexError.
Proof.
  apply (reversed_levels_raise 7 3 3 [Fin 1; Fin 2] (Fin 4) (512, 512)). lia.
Defined.

(** C5 as stated fails: no check of the level range runs and no
    configuration error is raised.  For levels 1 .. 0 the anchor scale is
    repeated zero times without complaint and the exception is the
    [IndexError] of indexing the flat feature array; for levels 4 .. 3 the
    features are built, empty, and the exception is the [ValueError] of the
    reshape in [build_octaves]. *)
Lemma reversed_levels_array_errors :
  np_repeat [Fin 4] (0 - 1 + 1) = Ok [] /\
  build_features (compute_feature_sizes (512, 512) 0) 1 0 1 = Raise IndexError /\
  build_prior_boxes 1 0 1 [Fin 1] (Fin 4) (512, 512) = Raise IndexError /\
  build_features (compute_feature_sizes (512, 512) 3) 4 3 1 = Ok ([], []) /\
  build_octaves 1 [Fin 1] (3 + 1 - 4) = Raise ValueError /\
  build_prior_boxes 4 3 1 [Fin 1] (Fin 4) (512, 512) = Raise ValueError.
Proof. repeat split; reflexivity. Qed.

(** C10 (failing input).  Levels [0 .. 0] satisfy the stated conditions,
    yet the flat feature array of [compute_feature_sizes] cannot be indexed
    by column and the request ends in an [IndexError]. *)
Theorem build_prior_boxes_level0 :
  0 <= 0 <= 0 /\ 1 <= 1 /\
  build_prior_boxes 0 0 1 [Fin 1] (Fin 4) (512, 512) = Raise IndexError.
Proof. split; [lia|]. split; [lia|]. reflexivity. Qed.

(** ** The boxes of a request with positive aspect ratios *)

Open Scope R_scope.









Close Scope R_scope.

(** ** Membership in the anchor set *)

Lemma in_level_boxes (num_scales : Z) (aspect_ratios : list f64)
    (anchor_scale : f64) (W H : Z) (level : nat) (center : f64 * f64)
    (octave_scale aspect : f64) :
  In center
     (grid_centers
        (axis_centers (stride_of H (feature_at level H))
           (Z.to_nat (feature_at level H)))
        (axis_centers (stride_of W (feature_at level W))
           (Z.to_nat (feature_at level W))) W H) ->
  In (octave_scale, aspect) (combinations num_scales aspect_ratios) ->
  In (corner_box center
        (half_extent anchor_scale (stride_of H (feature_at level H))
           octave_scale (fst (compute_aspect_ratio aspect)) H)
        (half_extent anchor_scale (stride_of W (feature_at level W))
           octave_scale (snd (compute_aspect_ratio aspect)) W))
     (level_boxes num_scales aspect_ratios anchor_scale (W, H) level).
Proof.
  intros Hcenter Hcomb. unfold level_boxes.
  apply in_flat_map. exists center. split; [exact Hcenter|].
  apply in_map_iff. exists (octave_scale, aspect). split; [reflexivity|].
  exact Hcomb.
Qed.

Lemma in_combinations_intro (num_scales : Z) (aspect_ratios : list f64)
    (k : nat) (a : f64) :
  (Z.of_nat k < num_scales)%Z -> In a aspect_ratios ->
  In (fdiv (of_int (Z.of_nat k)) (of_int num_scales), a)
     (combinations num_scales aspect_ratios).
Proof.
  intros Hk Ha. unfold combinations. apply in_flat_map.
  exists k. split.
  - unfold py_range. apply in_seq. lia.
  - apply in_map_iff. exists a. split; [reflexivity|exact Ha].
Qed.

Lemma in_grid_centers_intro (sx sy : f64) (nx ny : nat) (W H : Z) (i j : nat) :
  (i < ny)%nat -> (j < nx)%nat ->
  In (fdiv (fadd (fdiv sx (Fin 2)) (fmul (Fin (IZR (Z.of_nat j))) sx)) (of_int H),
      fdiv (fadd (fdiv sy (Fin 2)) (fmul (Fin (IZR (Z.of_nat i))) sy)) (of_int W))
     (grid_centers (axis_centers sx nx) (axis_centers sy ny) W H).
Proof.
  intros Hi Hj. unfold grid_centers, axis_centers. apply in_flat_map.
  eexists. split.
  - apply in_map_iff. exists i. split; [reflexivity|]. apply in_seq. lia.
  - apply in_map_iff. eexists. split; [reflexivity|].
    apply in_map_iff. exists j. split; [reflexivity|]. apply in_seq. lia.
Qed.

Open Scope R_scope.






Close Scope R_scope.

(** C2.  For a valid request the octave scales of every level list each
    scale once per aspect ratio, [s0, s0, ..., s1, s1, ...], the aspects of
    every level list the aspect ratios once per scale,
    [a0, a1, ..., a0, a1, ...], and the boxes of [build_prior_boxes] come
    level by level, inside a level grid position by grid position (row by
    row), and inside a grid position combination by combination, the
    combinations scale-major. *)
Theorem anchor_order (min_level max_level num_scales : Z)
    (aspect_ratios : list f64) (anchor_scale : f64) (image_size : Z * Z) :
  0 <= min_level <= max_level -> 1 <= max_level -> 1 <= num_scales ->
  aspect_ratios <> [] -> 1 <= fst image_size -> 1 <= snd image_size ->
  let num_levels := max_level + 1 - min_level in
  build_octaves num_scales aspect_ratios num_levels =
    Ok (repeat
          (flat_map (fun s => repeat (fdiv (of_int (Z.of_nat s)) (of_int num_scales))
                                     (length aspect_ratios))
                    (py_range num_scales))
          (Z.to_nat num_levels)) /\
  build_aspects aspect_ratios num_scales num_levels =
    Ok (repeat (concat (repeat aspect_ratios (Z.to_nat num_scales)))
               (Z.to_nat num_levels)) /\
  build_prior_boxes min_level max_level num_scales aspect_ratios anchor_scale
    image_size =
    Ok (to_center_form
          (flat_map
             (fun level =>
                let '(W, H) := image_size in
                let stride_y := stride_of W (feature_at level W) in
                let stride_x := stride_of H (feature_at level H) in
                flat_map
                  (fun center =>
                     map (fun '(octave_scale, aspect) =>
                            corner_box center
                              (half_extent anchor_scale stride_x octave_scale
                                 (fst (compute_aspect_ratio aspect)) H)
                              (half_extent anchor_scale stride_y octave_scale
                                 (snd (compute_aspect_ratio aspect)) W))
                         (flat_map
                            (fun s =>
                               map (fun a =>
                                      (fdiv (of_int (Z.of_nat s))
                                            (of_int num_scales), a))
                                   aspect_ratios)
                            (py_range num_scales)))
                  (flat_map
                     (fun y => map (fun x => (fdiv x (of_int H), fdiv y (of_int W)))
                                   (axis_centers stride_x
                                      (Z.to_nat (feature_at level H))))
                     (axis_centers stride_y (Z.to_nat (feature_at level W)))))
             (seq (Z.to_nat min_level) (Z.to_nat num_levels)))).
Proof.
  intros Hlv Hmax Hns Hne HW HH num_levels.
  split; [|split].
  - rewrite build_octaves_rows by (unfold num_levels; lia).
    unfold octave_row. do 2 f_equal.
    rewrite flat_map_concat_map, concat_map, map_map.
    f_equal. apply map_ext. intros s. now rewrite map_repeat.
  - rewrite build_aspects_rows by (unfold num_levels; lia).
    unfold aspect_row, py_range. now rewrite length_seq.
  - rewrite build_prior_boxes_loops by assumption.
    destruct image_size as [W H]. reflexivity.
Qed.

Lemma anchor_order_witness :
  build_octaves 2 [Fin 1; Fin 2] 2 =
    Ok [[fdiv (of_int 0) (of_int 2); fdiv (of_int 0) (of_int 2);
         fdiv (of_int 1) (of_int 2); fdiv (of_int 1) (of_int 2)];
        [fdiv (of_int 0) (of_int 2); fdiv (of_int 0) (of_int 2);
         fdiv (of_int 1) (of_int 2); fdiv (of_int 1) (of_int 2)]] /\
  build_aspects [Fin 1; Fin 2] 2 2 =
    Ok [[Fin 1; Fin 2; Fin 1; Fin 2]; [Fin 1; Fin 2; Fin 1; Fin 2]].
Proof.
  pose proof (anchor_order 1 2 2 [Fin 1; Fin 2] (Fin 4) (4, 4)) as P.
  simpl in P.
  destruct P as [P1 [P2 _]]; try lia; try discriminate.
  split; [exact P1|exact P2].
Defined.

(** ** The grid of [compute_box_coordinates] *)

Lemma nth_concat_uniform {A : Type} (rows : list (list A)) (w i j : nat) (d : A) :
  Forall (fun r => length r = w) rows -> (j < w)%nat ->
  nth (i * w + j) (concat rows) d = nth j (nth i rows []) d.
Proof.
  intros Hrows Hj. revert i. induction Hrows as [|r rows Hr _ IH]; intros i.
  - assert (E : forall (B : Type) (n : nat) (b : B), nth n [] b = b)
      by (intros B [|n] b; reflexivity).
    change (concat (@nil (list A))) with (@nil A). now rewrite !E.
  - destruct i as [|i]; simpl.
    + apply app_nth1. lia.
    + rewrite app_nth2 by lia.
      replace (w + i * w + j - length r)%nat with (i * w + j)%nat by lia.
      apply IH.
Qed.

Lemma nth_map_lt {A B : Type} (f : A -> B) (l : list A) (i : nat) (d : B) (d' : A) :
  (i < length l)%nat -> nth i (map f l) d = f (nth i l d').
Proof.
  intros Hi. rewrite (nth_indep _ d (f d')) by now rewrite length_map.
  apply map_nth.
Qed.

Lemma nth_meshgrid {A : Type} (x y : list A) (i j : nat) (d : A) :
  (i < length y)%nat -> (j < length x)%nat ->
  nth (i * length x + j) (flatten (fst (np_meshgrid x y))) d = nth j x d /\
  nth (i * length x + j) (flatten (snd (np_meshgrid x y))) d = nth i y d.
Proof.
  intros Hi Hj. unfold np_meshgrid, flatten. cbn [fst snd]. split.
  - rewrite nth_concat_uniform;
      [|apply Forall_map_const; reflexivity|exact Hj].
    now rewrite (nth_map_lt _ y i [] d) by exact Hi.
  - rewrite nth_concat_uniform;
      [|apply Forall_map_const; intros; apply length_map|exact Hj].
    rewrite (nth_map_lt _ y i [] d) by exact Hi.
    now rewrite (nth_map_lt _ x j d d) by exact Hj.
Qed.

Open Scope R_scope.

(** ** Strides beyond the image extent *)

Lemma np_arange_one (s : R) (extent : Z) :
  IZR extent < s -> s < 2 * IZR extent ->
  np_arange (fdiv (Fin s) (Fin 2)) (of_int extent) (Fin s) = Ok [Fin (s / 2)].
Proof.
  intros Hlo Hhi. rewrite np_arange_fin by lra.
  rewrite (Rceil_unique _ 1).
  - unfold axis_centers. change (Z.to_nat 1) with 1%nat. cbn [seq map].
    rewrite fdiv_fin by lra. cbn [fmul fadd Z.of_nat]. do 3 f_equal. lra.
  - apply (Rmult_lt_reg_r s); [lra|].
    unfold Rdiv at 1. rewrite Rmult_assoc, Rinv_l, Rmult_1_r by lra. lra.
  - apply (Rmult_le_reg_r s); [lra|].
    unfold Rdiv at 1. rewrite Rmult_assoc, Rinv_l, Rmult_1_r by lra. lra.
Qed.

Lemma np_arange_none (s : R) (extent : Z) :
  0 < s -> 2 * IZR extent <= s ->
  np_arange (fdiv (Fin s) (Fin 2)) (of_int extent) (Fin s) = Ok [].
Proof.
  intros Hs Hhi. rewrite np_arange_fin by lra.
  set (d := (IZR extent + - (s / 2)) / s).
  destruct (Rceil_bounds d) as [Hlo _].
  assert (Hd : d <= 0).
  { apply (Rmult_le_reg_r s); [lra|].
    unfold d, Rdiv at 1. rewrite Rmult_assoc, Rinv_l, Rmult_1_r by lra. lra. }
  assert (Hc : (Rceil d < 1)%Z) by (apply lt_IZR; lra).
  replace (Z.to_nat (Rceil d)) with 0%nat by lia. reflexivity.
Qed.

Lemma concat_map_singleton {A B : Type} (v : B) (l : list A) :
  concat (map (fun _ => [v]) l) = map (fun _ => v) l.
Proof. induction l as [|a l IH]; simpl; [reflexivity|]. now rewrite IH. Qed.

Lemma concat_map_nil {A B : Type} (l : list A) :
  concat (map (fun _ => @nil B) l) = [].
Proof. induction l as [|a l IH]; simpl; auto. Qed.

(** C8 (amended).  When the stride along a dimension exceeds the
    (positive) extent, the axis [np.arange(stride / 2, extent, stride)] has
    exactly one point if the stride is below twice the extent, and no point
    from twice the extent on.  Along x the grid of
    [compute_box_coordinates] then has one point per row, or is empty. *)
Theorem stride_beyond_extent :
  (forall (stride : R) (extent : Z),
      0 < IZR extent -> IZR extent < stride ->
      (stride < 2 * IZR extent ->
       np_arange (fdiv (Fin stride) (Fin 2)) (of_int extent) (Fin stride)
       = Ok [Fin (stride / 2)]) /\
      (2 * IZR extent <= stride ->
       np_arange (fdiv (Fin stride) (Fin 2)) (of_int extent) (Fin stride)
       = Ok [])) /\
  (forall (sy sx : R) (o a s : f64) (W H : Z),
      0 < sy -> 0 < IZR H -> IZR H < sx ->
      exists (ys : list f64) (anchor_x anchor_y : f64),
        np_arange (fdiv (Fin sy) (Fin 2)) (of_int W) (Fin sy) = Ok ys /\
        (sx < 2 * IZR H ->
         compute_box_coordinates (Fin sy) (Fin sx) o a s (W, H) =
         Ok (map (fun _ => Fin (sx / 2 / IZR H)) ys,
             map (fun y => fdiv y (of_int W)) ys, anchor_x, anchor_y)) /\
        (2 * IZR H <= sx ->
         compute_box_coordinates (Fin sy) (Fin sx) o a s (W, H) =
         Ok ([], [], anchor_x, anchor_y))).
Proof.
  split.
  { intros stride extent He Hs. split; intros Hc.
    - apply np_arange_one; lra.
    - apply np_arange_none; lra. }
  intros sy sx o a s W H Hsy HH Hsx. unfold compute_box_coordinates.
  destruct (compute_aspect_ratio a) as [aspect_x aspect_y].
  rewrite (np_arange_fin sy W) by lra.
  do 3 eexists. split; [reflexivity|]. split; intros Hc.
  - rewrite np_arange_one by lra. cbn [bind np_meshgrid flatten].
    rewrite concat_map_singleton, map_map.
    rewrite (map_ext (fun yi => map (fun _ => yi) [Fin (sx / 2)])
                     (fun yi => [yi])) by reflexivity.
    replace (concat (map (fun yi => [yi]) _)) with
      (axis_centers (Fin sy) (Z.to_nat (Rceil ((IZR W + - (sy / 2)) / sy)))).
    + unfold of_int at 1. rewrite fdiv_fin by lra. reflexivity.
    + generalize (axis_centers (Fin sy)
                    (Z.to_nat (Rceil ((IZR W + - (sy / 2)) / sy)))).
      intros l. induction l as [|y l IH]; simpl; [reflexivity|].
      now rewrite <- IH.
  - rewrite np_arange_none by lra. cbn [bind np_meshgrid flatten].
    rewrite concat_map_nil.
    rewrite (map_ext (fun yi => map (fun _ => yi) (@nil f64))
                     (fun _ => []))
      by reflexivity.
    rewrite concat_map_nil. reflexivity.
Qed.

Lemma stride_beyond_extent_witness :
  (3 < 2 * 2 ->
   np_arange (fdiv (Fin 3) (Fin 2)) (of_int 2) (Fin 3) = Ok [Fin (3 / 2)]) /\
  (2 * 2 <= 3 ->
   np_arange (fdiv (Fin 3) (Fin 2)) (of_int 2) (Fin 3) = Ok []).
Proof.
  apply (proj1 stride_beyond_extent 3 2%Z); lra.
Defined.

(** C8 as stated fails from twice the extent on: with stride 4 along an
    extent of 1 the first center, 2, is already beyond the extent and the
    grid is empty, although the y axis has its point. *)
Lemma stride_four_extent_one :
  1 < 4 /\
  np_arange (fdiv (Fin 4) (Fin 2)) (of_int 1) (Fin 4) = Ok [] /\
  np_arange (fdiv (Fin 1) (Fin 2)) (of_int 1) (Fin 1) = Ok [Fin (1 / 2)] /\
  exists anchor_x anchor_y,
    compute_box_coordinates (Fin 1) (Fin 4) (Fin 0) (Fin 1) (Fin 1) (1, 1)%Z =
    Ok ([], [], anchor_x, anchor_y).
Proof.
  split; [lra|].
  assert (Ex : np_arange (fdiv (Fin 4) (Fin 2)) (of_int 1) (Fin 4) = Ok [])
    by (apply np_arange_none; lra).
  assert (Ey : np_arange (fdiv (Fin 1) (Fin 2)) (of_int 1) (Fin 1)
               = Ok [Fin (1 / 2)]).
  { rewrite np_arange_fin by lra. rewrite (Rceil_unique _ 1) by lra.
    unfold axis_centers. change (Z.to_nat 1) with 1%nat. cbn [seq map].
    rewrite fdiv_fin by lra. cbn [fmul fadd Z.of_nat]. do 3 f_equal. lra. }
  split; [exact Ex|]. split; [exact Ey|].
  unfold compute_box_coordinates.
  destruct (compute_aspect_ratio (Fin 1)) as [aspect_x aspect_y].
  rewrite Ex, Ey. cbn [bind np_meshgrid flatten map concat app].
  do 2 eexists. reflexivity.
Qed.

Close Scope R_scope.

(** ** Special values *)

Lemma fmul_not_finite_r (a b : f64) : ~ is_finite b -> ~ is_finite (fmul a b).
Proof. destruct a, b; f64_cases. Qed.

Lemma fdiv_not_finite_l (a : f64) (y : R) :
  ~ is_finite a -> ~ is_finite (fdiv a (Fin y)).
Proof. destruct a; f64_cases. Qed.

Lemma fadd_not_finite_l (a b : f64) : ~ is_finite a -> ~ is_finite (fadd a b).
Proof. destruct a, b; f64_cases. Qed.

Lemma fadd_not_finite_r (a b : f64) : ~ is_finite b -> ~ is_finite (fadd a b).
Proof. destruct a, b; f64_cases. Qed.

Lemma fsub_not_finite_l (a b : f64) : ~ is_finite a -> ~ is_finite (fsub a b).
Proof. destruct a, b; f64_cases. Qed.

Lemma aspect_y_not_finite (r : R) :
  (r <= 0)%R -> ~ is_finite (snd (compute_aspect_ratio (Fin r))).
Proof.
  intros Hr. unfold compute_aspect_ratio. cbn [snd].
  destruct (Rlt_dec r 0) as [Hlt|Hge].
  - rewrite fsqrt_neg by exact Hlt. simpl. tauto.
  - assert (r = 0%R) as -> by lra.
    rewrite fsqrt_fin by lra. rewrite sqrt_0. f64_cases.
Qed.

Lemma half_extent_not_finite (anchor_scale stride octave_scale factor : f64)
    (extent : Z) :
  ~ is_finite factor ->
  ~ is_finite (half_extent anchor_scale stride octave_scale factor extent).
Proof.
  intros Hf. unfold half_extent, of_int.
  now apply fdiv_not_finite_l, fdiv_not_finite_l, fmul_not_finite_r.
Qed.

Lemma center_form_not_finite (center : f64 * f64) (anchor_x anchor_y : f64) :
  ~ is_finite anchor_y ->
  ~ box_finite (to_center_form_box (corner_box center anchor_x anchor_y)).
Proof.
  intros Hy. destruct center as [cx cy]. unfold corner_box, to_center_form_box.
  unfold box_finite. intros [_ [_ [_ Hh]]]. revert Hh.
  apply fsub_not_finite_l, fadd_not_finite_r, Hy.
Qed.

Lemma levels_first (min_level max_level : Z) :
  0 <= min_level <= max_level ->
  In (Z.to_nat min_level) (levels min_level max_level).
Proof. intros Hlv. unfold levels. apply in_seq. lia. Qed.

Lemma np_arange_zero_step (start stop : f64) :
  is_ok (np_arange start stop (Fin 0)) = false.
Proof.
  unfold np_arange. destruct (fsub stop start) as [v| | |]; simpl.
  - destruct (Req_dec_T 0 0) as [_|N]; [|contradiction].
    unfold signed_inf. destruct (Req_dec_T v 0); [reflexivity|].
    destruct (Rlt_dec 0 v); reflexivity.
  - destruct (Rlt_dec 0 0); reflexivity.
  - destruct (Rlt_dec 0 0); reflexivity.
  - reflexivity.
Qed.

Lemma feature_at_zero (k : nat) : feature_at k 0 = 0.
Proof.
  induction k as [|k IH]; [reflexivity|].
  change (feature_at (S k) 0) with (downsample (feature_at k 0)).
  now rewrite IH.
Qed.

Lemma stride_of_zero : stride_of 0 0 = NaN.
Proof.
  unfold stride_of, np_reciprocal, of_int. simpl.
  destruct (Req_dec_T 0 0) as [_|N]; [|contradiction].
  unfold signed_inf.
  destruct (Req_dec_T 1 0) as [E|_]; [lra|].
  destruct (Rlt_dec 0 1) as [_|N]; [|lra].
  simpl. unfold signed_inf.
  destruct (Req_dec_T 0 0) as [_|N]; [reflexivity|contradiction].
Qed.

Lemma compute_box_coordinates_zero_extent (W H : Z) (level : nat)
    (octave_scale aspect anchor_scale : f64) :
  0 <= W -> 0 <= H -> W = 0 \/ H = 0 ->
  compute_box_coordinates (stride_of W (feature_at level W))
    (stride_of H (feature_at level H)) octave_scale aspect anchor_scale (W, H)
  = Raise ValueError.
Proof.
  intros HW HH Hz. unfold compute_box_coordinates.
  destruct (compute_aspect_ratio aspect) as [aspect_x aspect_y].
  destruct (Z.eq_dec H 0) as [->|HnH].
  - rewrite feature_at_zero, stride_of_zero. reflexivity.
  - destruct Hz as [->|]; [|contradiction].
    rewrite (np_arange_level H (feature_at level H))
      by (try apply feature_at_pos; lia).
    cbn [bind]. rewrite feature_at_zero, stride_of_zero. reflexivity.
Qed.

(** C6 (amended).  A non-positive aspect ratio raises no numeric-domain
    error: for a structurally valid request one of whose aspect ratios is
    zero or negative, [build_prior_boxes] returns an array, and that array
    holds a box with a coordinate that is not a number (nan or an infinity).
    A zero stride does make the construction fail: [compute_box_coordinates]
    raises for a stride of zero along x or along y, and an image with a zero
    extent, whose strides are nan, makes [build_prior_boxes] end in a
    [ValueError]. *)
Theorem nonpositive_ratio_returns :
  (forall (min_level max_level num_scales : Z) (aspect_ratios : list f64)
          (anchor_scale : f64) (image_size : Z * Z) (r : R),
      0 <= min_level <= max_level -> 1 <= max_level -> 1 <= num_scales ->
      1 <= fst image_size -> 1 <= snd image_size ->
      In (Fin r) aspect_ratios -> (r <= 0)%R ->
      exists boxes b,
        build_prior_boxes min_level max_level num_scales aspect_ratios
          anchor_scale image_size = Ok boxes /\
        In b boxes /\ ~ box_finite b) /\
  (forall (stride_y stride_x octave_scale aspect anchor_scale : f64)
          (image_size : Z * Z),
      stride_x = Fin 0 \/ stride_y = Fin 0 ->
      is_ok (compute_box_coordinates stride_y stride_x octave_scale aspect
               anchor_scale image_size) = false) /\
  (forall (min_level max_level num_scales : Z) (aspect_ratios : list f64)
          (anchor_scale : f64) (image_size : Z * Z),
      0 <= min_level <= max_level -> 1 <= max_level -> 1 <= num_scales ->
      aspect_ratios <> [] ->
      0 <= fst image_size -> 0 <= snd image_size ->
      fst image_size = 0 \/ snd image_size = 0 ->
      build_prior_boxes min_level max_level num_scales aspect_ratios
        anchor_scale image_size = Raise ValueError).
Proof.
  split; [|split].
  - intros min_level max_level num_scales aspect_ratios anchor_scale
      image_size r.
    destruct image_size as [W H]. simpl fst. simpl snd.
    intros Hlv Hmax Hns HW HH Ha Hr.
    pose proof (feature_at_pos (Z.to_nat min_level) W HW) as HfW.
    pose proof (feature_at_pos (Z.to_nat min_level) H HH) as HfH.
    do 2 eexists. split; [|split].
    + apply build_prior_boxes_loops; try assumption.
      intros ->. contradiction.
    + unfold to_center_form. apply in_map. unfold corner_anchors.
      apply in_flat_map. exists (Z.to_nat min_level).
      split; [now apply levels_first|].
      apply in_level_boxes.
      * apply (in_grid_centers_intro _ _ _ _ W H 0 0); lia.
      * apply (in_combinations_intro num_scales aspect_ratios 0 (Fin r));
          [lia|exact Ha].
    + apply center_form_not_finite, half_extent_not_finite.
      now apply aspect_y_not_finite.
  - intros stride_y stride_x octave_scale aspect anchor_scale [W H] Hz.
    unfold compute_box_coordinates.
    destruct (compute_aspect_ratio aspect) as [aspect_x aspect_y].
    apply is_ok_bind_false. intros x Ex.
    destruct Hz as [-> | ->].
    + pose proof (np_arange_zero_step (fdiv (Fin 0) (Fin 2)) (of_int H)) as F.
      rewrite Ex in F. discriminate.
    + apply is_ok_bind_false. intros y Ey.
      pose proof (np_arange_zero_step (fdiv (Fin 0) (Fin 2)) (of_int W)) as F.
      rewrite Ey in F. discriminate.
  - intros min_level max_level num_scales aspect_ratios anchor_scale
      image_size.
    destruct image_size as [W H]. simpl fst. simpl snd.
    intros Hlv Hmax Hns Hne HW HH Hz. unfold build_prior_boxes.
    rewrite np_repeat_ok by lia. cbn [bind map concat]. rewrite app_nil_r.
    replace (max_level - min_level + 1) with (max_level + 1 - min_level) by lia.
    unfold generate_anchors.
    rewrite generate_configurations_rows by assumption. cbn [bind].
    cbn [cfg_strides_y cfg_strides_x cfg_octave_scales cfg_aspects
         cfg_anchor_scales].
    remember (length (py_range num_scales) * length aspect_ratios)%nat
      as count eqn:Ecount.
    assert (Hcount : (1 <= count)%nat).
    { rewrite Ecount. unfold py_range. rewrite length_seq.
      destruct aspect_ratios; [congruence|]. simpl. nia. }
    unfold py_range at 1, levels.
    destruct (Z.to_nat (max_level + 1 - min_level)) as [|n] eqn:En; [lia|].
    cbn [seq for_each map repeat index nth_error bind].
    unfold generate_level_boxes, py_range. rewrite Nat2Z.id.
    destruct count as [|c]; [lia|].
    cbn [seq for_each repeat index nth_error bind].
    destruct (octave_row num_scales aspect_ratios) as [|o orow] eqn:Eo.
    { apply (f_equal (@length _)) in Eo. rewrite length_octave_row in Eo.
      unfold py_range in Eo, Ecount. rewrite <- Ecount in Eo. discriminate. }
    destruct (aspect_row num_scales aspect_ratios) as [|a arow] eqn:Ea.
    { apply (f_equal (@length _)) in Ea. rewrite length_aspect_row in Ea.
      unfold py_range in Ea, Ecount. rewrite <- Ecount in Ea. discriminate. }
    cbn [index nth_error bind].
    rewrite compute_box_coordinates_zero_extent by assumption.
    reflexivity.
Qed.

Lemma nonpositive_ratio_returns_witness :
  (exists boxes b,
      build_prior_boxes 3 7 3 [Fin 1; Fin 0; Fin (1 / 2)] (Fin 4) (512, 512)
      = Ok boxes /\
      In b boxes /\ ~ box_finite b) /\
  is_ok (compute_box_coordinates (Fin 8) (Fin 0) (Fin 0) (Fin 1) (Fin 4)
           (512, 512)) = false /\
  build_prior_boxes 3 7 3 [Fin 1; Fin 2] (Fin 4) (512, 0) = Raise ValueError.
Proof.
  split; [|split].
  - apply (proj1 nonpositive_ratio_returns 3 7 3
             [Fin 1; Fin 0; Fin (1 / 2)]%R (Fin 4) (512, 512) 0%R);
      simpl; try lia; try lra.
    right. left. reflexivity.
  - apply (proj1 (proj2 nonpositive_ratio_returns) (Fin 8) (Fin 0) (Fin 0)
             (Fin 1) (Fin 4) (512, 512)).
    left. reflexivity.
  - apply (proj2 (proj2 nonpositive_ratio_returns) 3 7 3 [Fin 1; Fin 2]
             (Fin 4) (512, 0)); simpl; try lia; try discriminate.
Defined.

Lemma fmul_nan_r (a : f64) : fmul a NaN = NaN.
Proof. now destruct a. Qed.

Lemma half_extent_nan (anchor_scale stride octave_scale : f64) (extent : Z) :
  half_extent anchor_scale stride octave_scale NaN extent = NaN.
Proof. unfold half_extent. now rewrite fmul_nan_r. Qed.

Lemma corner_box_nan (center : f64 * f64) :
  to_center_form_box (corner_box center NaN NaN) = (NaN, NaN, NaN, NaN).
Proof. destruct center as [[] []]; reflexivity. Qed.

Lemma aspect_ratio_negative (r : R) :
  (r < 0)%R -> compute_aspect_ratio (Fin r) = (NaN, NaN).
Proof.
  intros Hr. unfold compute_aspect_ratio. now rewrite fsqrt_neg by exact Hr.
Qed.

(** C6 as stated fails: the aspect ratio -1 raises nothing, and the one box
    of the request is made of nan. *)
Lemma negative_ratio_nan :
  build_prior_boxes 1 1 1 [Fin (-1)] (Fin 4) (1, 1) =
  Ok [(NaN, NaN, NaN, NaN)].
Proof.
  rewrite build_prior_boxes_loops by (simpl; try lia; discriminate).
  unfold corner_anchors. change (levels 1 1) with [1%nat].
  cbn [flat_map]. rewrite app_nil_r. unfold level_boxes.
  change (feature_at 1 1) with 1. change (Z.to_nat 1) with 1%nat.
  unfold combinations, py_range, axis_centers, grid_centers.
  change (Z.to_nat 1) with 1%nat.
  cbn [seq map flat_map app]. rewrite aspect_ratio_negative by lra.
  cbn [fst snd]. rewrite !half_extent_nan.
  unfold to_center_form. cbn [map]. now rewrite corner_box_nan.
Qed.

(** * Further properties of the module *)

(** ** Feature sizes as ceilings *)

Lemma feature_at_closed (k : nat) (x : Z) :
  feature_at k x = (x - 1) / 2 ^ Z.of_nat k + 1.
Proof.
  induction k as [|k IH].
  - simpl. rewrite Z.div_1_r. lia.
  - change (feature_at (S k) x) with (downsample (feature_at k x)).
    rewrite IH. unfold downsample.
    rewrite Nat2Z.inj_succ, Z.pow_succ_r by lia.
    replace ((x - 1) / 2 ^ Z.of_nat k + 1 - 1) with ((x - 1) / 2 ^ Z.of_nat k)
      by lia.
    rewrite Z.div_div by lia.
    now rewrite (Z.mul_comm 2).
Qed.

Lemma feature_at_ceiling (k : nat) (x : Z) :
  x <= feature_at k x * 2 ^ Z.of_nat k < x + 2 ^ Z.of_nat k.
Proof.
  rewrite feature_at_closed.
  assert (Hp : 0 < 2 ^ Z.of_nat k) by (apply Z.pow_pos_nonneg; lia).
  pose proof (Z.div_mod (x - 1) (2 ^ Z.of_nat k)) as Hd.
  pose proof (Z.mod_pos_bound (x - 1) (2 ^ Z.of_nat k) Hp) as Hm.
  nia.
Qed.

Lemma feature_at_le (k : nat) (x : Z) : 1 <= x -> feature_at k x <= x.
Proof.
  intros Hx. induction k as [|k IH]; [simpl; lia|].
  change (feature_at (S k) x) with (downsample (feature_at k x)).
  pose proof (feature_at_pos k x Hx) as Hk. unfold downsample.
  assert ((feature_at k x - 1) / 2 <= feature_at k x - 1)
    by (apply Z.div_le_upper_bound; lia).
  lia.
Qed.

Lemma feature_at_step (k : nat) (x : Z) :
  1 <= x -> feature_at (S k) x <= feature_at k x.
Proof.
  intros Hx.
  change (feature_at (S k) x) with (downsample (feature_at k x)).
  pose proof (feature_at_pos k x Hx) as Hk. unfold downsample.
  assert ((feature_at k x - 1) / 2 <= feature_at k x - 1)
    by (apply Z.div_le_upper_bound; lia).
  lia.
Qed.

Lemma feature_at_one (k : nat) (x : Z) :
  1 <= x -> (feature_at k x = 1 <-> x <= 2 ^ Z.of_nat k).
Proof.
  intros Hx. pose proof (feature_at_ceiling k x) as Hc.
  pose proof (feature_at_pos k x Hx) as Hk.
  assert (Hp : 0 < 2 ^ Z.of_nat k) by (apply Z.pow_pos_nonneg; lia).
  split; intros E; [rewrite E in Hc; lia|nia].
Qed.

Lemma nth_error_feature_rows (H W : Z) (n k : nat) (h w : Z) :
  nth_error (map (fun j => (feature_at j H, feature_at j W)) (seq 0 n)) k
  = Some (h, w) ->
  (k < n)%nat /\ h = feature_at k H /\ w = feature_at k W.
Proof.
  intros E. rewrite nth_error_map, nth_error_seq in E.
  destruct (Nat.ltb_spec k n) as [Hlt|Hge]; [|discriminate].
  simpl in E. injection E as <- <-. auto.
Qed.

(** X1.  For image extents of magnitude at most [2^53], which the array of
    feature sizes stores exactly, and from one level on, row [k] of the
    feature sizes holds the ceilings of [H / 2^k] and [W / 2^k]: the least
    integers whose multiple by [2^k] reaches the image extents. *)
Theorem feature_sizes_ceiling (H W max_level : Z) :
  - 2 ^ 53 <= H <= 2 ^ 53 -> - 2 ^ 53 <= W <= 2 ^ 53 ->
  1 <= max_level ->
  exists rows,
    compute_feature_sizes (H, W) max_level = Rows rows /\
    forall k : nat, Z.of_nat k <= max_level ->
      exists h w,
        nth_error rows k = Some (h, w) /\
        H <= h * 2 ^ Z.of_nat k < H + 2 ^ Z.of_nat k /\
        W <= w * 2 ^ Z.of_nat k < W + 2 ^ Z.of_nat k.
Proof.
  intros _ _ Hl. eexists. split; [now apply compute_feature_sizes_rows|].
  intros k Hk. exists (feature_at k H), (feature_at k W).
  split.
  - rewrite nth_error_map, nth_error_seq.
    destruct (Nat.ltb_spec k (S (Z.to_nat max_level))); [reflexivity|lia].
  - split; apply feature_at_ceiling.
Qed.

Lemma feature_sizes_ceiling_witness :
  exists rows,
    compute_feature_sizes (300, 511) 3 = Rows rows /\
    forall k : nat, Z.of_nat k <= 3 ->
      exists h w,
        nth_error rows k = Some (h, w) /\
        300 <= h * 2 ^ Z.of_nat k < 300 + 2 ^ Z.of_nat k /\
        511 <= w * 2 ^ Z.of_nat k < 511 + 2 ^ Z.of_nat k.
Proof. apply (feature_sizes_ceiling 300 511 3); lia. Defined.

(** X2.  For image extents from 1 to [2^53], which the array of feature
    sizes stores exactly, every feature size lies between 1 and the image
    extent, never grows from one level to the next, and is 1 exactly from
    the level on where [2^k] reaches the extent. *)
Theorem feature_sizes_shrink (H W max_level : Z) :
  1 <= H <= 2 ^ 53 -> 1 <= W <= 2 ^ 53 -> 1 <= max_level ->
  exists rows,
    compute_feature_sizes (H, W) max_level = Rows rows /\
    (forall (k : nat) (h w : Z),
        nth_error rows k = Some (h, w) ->
        1 <= h <= H /\ 1 <= w <= W /\
        (h = 1 <-> H <= 2 ^ Z.of_nat k) /\
        (w = 1 <-> W <= 2 ^ Z.of_nat k)) /\
    (forall (k : nat) (h w h' w' : Z),
        nth_error rows k = Some (h, w) ->
        nth_error rows (S k) = Some (h', w') ->
        h' <= h /\ w' <= w).
Proof.
  intros [HH _] [HW _] Hl.
  eexists. split; [now apply compute_feature_sizes_rows|].
  split.
  - intros k h w E. apply nth_error_feature_rows in E.
    destruct E as [_ [-> ->]].
    pose proof (feature_at_pos k H HH). pose proof (feature_at_pos k W HW).
    pose proof (feature_at_le k H HH). pose proof (feature_at_le k W HW).
    repeat split; try lia; try (now apply feature_at_one).
  - intros k h w h' w' E E'.
    apply nth_error_feature_rows in E, E'.
    destruct E as [_ [-> ->]]. destruct E' as [_ [-> ->]].
    split; now apply feature_at_step.
Qed.

Lemma feature_sizes_shrink_witness :
  exists rows,
    compute_feature_sizes (300, 511) 3 = Rows rows /\
    (forall (k : nat) (h w : Z),
        nth_error rows k = Some (h, w) ->
        1 <= h <= 300 /\ 1 <= w <= 511 /\
        (h = 1 <-> 300 <= 2 ^ Z.of_nat k) /\
        (w = 1 <-> 511 <= 2 ^ Z.of_nat k)) /\
    (forall (k : nat) (h w h' w' : Z),
        nth_error rows k = Some (h, w) ->
        nth_error rows (S k) = Some (h', w') ->
        h' <= h /\ w' <= w).
Proof. apply (feature_sizes_shrink 300 511 3); lia. Defined.

(** ** Failing computations and shapes *)

Lemma for_each_raises {A B : Type} (f : A -> result B) (l : list A) (a : A) :
  In a l -> is_ok (f a) = false -> is_ok (for_each f l) = false.
Proof.
  intros Ha Hf. induction l as [|b l IH]; [contradiction|].
  simpl. destruct (f b) as [y|e] eqn:E; [|reflexivity]. cbn [bind].
  destruct Ha as [->|Ha]; [rewrite E in Hf; discriminate|].
  specialize (IH Ha). destruct (for_each f l); [discriminate|reflexivity].
Qed.

Lemma length_chunks {A : Type} (k w : nat) (l : list A) :
  length (chunks k w l) = k.
Proof. revert l. induction k as [|k IH]; intros l; simpl; auto. Qed.

Lemma chunks_rows {A : Type} (k w : nat) (l : list A) :
  length l = (k * w)%nat -> Forall (fun r => length r = w) (chunks k w l).
Proof.
  revert l. induction k as [|k IH]; intros l Hl; simpl; constructor.
  - rewrite length_firstn. simpl in Hl. lia.
  - apply IH. rewrite length_skipn. simpl in Hl. lia.
Qed.

(** A successful [reshape(n, -1)]: [n] is positive, there are [n] rows and
    every row holds the [n]-th part of the elements. *)
Lemma np_reshape_rows_shape {A : Type} (l : list A) (n : Z) (rows : list (list A)) :
  np_reshape_rows l n = Ok rows ->
  0 < n /\ length rows = Z.to_nat n /\
  Forall (fun r => Z.of_nat (length r) * n = Z.of_nat (length l)) rows.
Proof.
  unfold np_reshape_rows.
  destruct (Z.leb_spec n 0) as [|Hn]; [discriminate|].
  destruct (Z.eqb_spec (Z.of_nat (length l) mod n) 0) as [Hm|]; [|discriminate].
  intros [= <-]. split; [exact Hn|]. split; [apply length_chunks|].
  assert (Hs : Z.of_nat (length l) = n * (Z.of_nat (length l) / n))
    by (apply Z.div_exact; lia).
  assert (Hq : 0 <= Z.of_nat (length l) / n) by (apply Z.div_pos; lia).
  eapply Forall_impl; [|apply chunks_rows; nia].
  intros r Hr. simpl in Hr. rewrite Hr. nia.
Qed.

Lemma np_tile_length {A : Type} (l tiled : list A) (n : Z) :
  0 < n -> np_tile l n = Ok tiled ->
  Z.of_nat (length tiled) = Z.of_nat (length l) * n.
Proof.
  intros Hn. rewrite np_tile_ok by lia. intros [= <-].
  rewrite (length_concat_uniform _ (length l)) by now apply Forall_repeat.
  rewrite repeat_length. nia.
Qed.

Lemma np_repeat_length {A : Type} (l repeated : list A) (n : Z) :
  np_repeat l n = Ok repeated ->
  Z.of_nat (length repeated) = Z.of_nat (length l) * n.
Proof.
  unfold np_repeat. destruct l as [|a l'] eqn:El; [now intros [= <-]|].
  rewrite <- El. clear El a l'.
  destruct (Z.ltb_spec n 0); [discriminate|].
  intros [= <-].
  rewrite flat_map_concat_map.
  rewrite (length_concat_uniform _ (Z.to_nat n)).
  - rewrite length_map. nia.
  - apply Forall_map_const. intros a. apply repeat_length.
Qed.

Lemma build_octaves_shape (num_scales : Z) (aspect_ratios : list f64)
    (num_levels : Z) (rows : list (list f64)) :
  build_octaves num_scales aspect_ratios num_levels = Ok rows ->
  0 < num_levels /\ length rows = Z.to_nat num_levels /\
  Forall (fun r => Z.of_nat (length r) =
                   Z.of_nat (length (py_range num_scales))
                   * Z.of_nat (length aspect_ratios)) rows.
Proof.
  unfold build_octaves.
  destruct (np_repeat _ _) as [scale_octaves|] eqn:E1; [|discriminate].
  cbn [bind]. destruct (np_tile _ _) as [tiled|] eqn:E2; [|discriminate].
  cbn [bind]. intros E3. apply np_reshape_rows_shape in E3.
  destruct E3 as [Hn [Hlen Hrows]]. split; [exact Hn|]. split; [exact Hlen|].
  apply np_repeat_length in E1.
  apply np_tile_length in E2; [|exact Hn].
  rewrite length_map in Hrows.
  eapply Forall_impl; [|exact Hrows]. intros r Hr. simpl in Hr. nia.
Qed.

Lemma build_aspects_shape (aspect_ratios : list f64) (num_scales num_levels : Z)
    (rows : list (list f64)) :
  build_aspects aspect_ratios num_scales num_levels = Ok rows ->
  0 < num_levels /\ length rows = Z.to_nat num_levels /\
  Forall (fun r => Z.of_nat (length r) =
                   Z.of_nat (length (py_range num_scales))
                   * Z.of_nat (length aspect_ratios)) rows.
Proof.
  unfold build_aspects. rewrite np_tile_ok by lia. cbn [bind].
  destruct (np_tile _ _) as [tiled|] eqn:E2; [|discriminate].
  cbn [bind]. intros E3. apply np_reshape_rows_shape in E3.
  destruct E3 as [Hn [Hlen Hrows]]. split; [exact Hn|]. split; [exact Hlen|].
  apply np_tile_length in E2; [|exact Hn].
  rewrite (length_concat_uniform _ (length aspect_ratios)) in E2
    by now apply Forall_repeat.
  rewrite repeat_length, Nat2Z.id in E2.
  eapply Forall_impl; [|exact Hrows]. intros r Hr. simpl in Hr. nia.
Qed.

(** X3.  Whatever its arguments, a configuration that
    [generate_configurations] returns has at least one level, its five
    arrays have one row per level, and every row of octave scales and of
    aspects has one entry per combination. *)
Theorem generate_configurations_shape (feature_sizes : feature_array)
    (min_level max_level num_scales : Z) (aspect_ratios anchor_scale : list f64)
    (cfg : configuration) (num_levels count : Z) :
  generate_configurations feature_sizes min_level max_level num_scales
    aspect_ratios anchor_scale = Ok (cfg, num_levels, count) ->
  num_levels = max_level + 1 - min_level /\ 1 <= num_levels /\
  count = Z.max 0 num_scales * Z.of_nat (length aspect_ratios) /\
  length (cfg_strides_y cfg) = Z.to_nat num_levels /\
  length (cfg_strides_x cfg) = Z.to_nat num_levels /\
  length (cfg_octave_scales cfg) = Z.to_nat num_levels /\
  length (cfg_aspects cfg) = Z.to_nat num_levels /\
  length (cfg_anchor_scales cfg) = Z.to_nat num_levels /\
  Forall (fun r => Z.of_nat (length r) = count) (cfg_octave_scales cfg) /\
  Forall (fun r => Z.of_nat (length r) = count) (cfg_aspects cfg).
Proof.
  unfold generate_configurations.
  destruct (build_features _ _ _ _) as [[features_H features_W]|];
    [|discriminate].
  cbn [bind]. destruct (build_octaves _ _ _) as [oc|] eqn:Eo; [|discriminate].
  cbn [bind]. destruct (build_aspects _ _ _) as [ar|] eqn:Ea; [|discriminate].
  cbn [bind]. destruct (build_strides _ _ _ _) as [[sy sx]|] eqn:Es;
    [|discriminate].
  cbn [bind]. destruct (build_scales _ _ _) as [sc|] eqn:Ec; [|discriminate].
  cbn [bind]. intros [= <- <- <-]. cbn [cfg_strides_y cfg_strides_x
    cfg_octave_scales cfg_aspects cfg_anchor_scales].
  apply build_octaves_shape in Eo. destruct Eo as [Hn [Lo Ro]].
  apply build_aspects_shape in Ea. destruct Ea as [_ [La Ra]].
  assert (Hc : Z.of_nat (length (py_range num_scales)) = Z.max 0 num_scales)
    by (unfold py_range; rewrite length_seq; lia).
  rewrite Hc in Ro, Ra |- *.
  unfold build_strides in Es. destruct feature_sizes as [hw|[|[bH bW] rows]];
    try discriminate.
  destruct (np_reshape_rows _ _) as [ry|] eqn:Ey in Es; [|discriminate].
  cbn [bind] in Es.
  destruct (np_reshape_rows _ _) as [rx|] eqn:Ex in Es; [|discriminate].
  cbn [bind] in Es. injection Es as <- <-.
  apply np_reshape_rows_shape in Ey, Ex.
  unfold build_scales in Ec.
  destruct (np_repeat _ _) as [rep|] in Ec; [|discriminate].
  cbn [bind] in Ec. apply np_reshape_rows_shape in Ec.
  repeat split; try lia; try tauto.
Qed.

Lemma generate_configurations_shape_witness :
  exists cfg,
    generate_configurations (compute_feature_sizes (4, 4) 2) 1 2 1 [Fin 1]
      [Fin 4; Fin 4] = Ok (cfg, 2, 1) /\
    length (cfg_strides_y cfg) = 2%nat /\
    Forall (fun r => Z.of_nat (length r) = 1) (cfg_octave_scales cfg).
Proof.
  pose proof (generate_configurations_rows 4 4 1 2 1 [Fin 1] (Fin 4)) as E.
  cbv zeta in E. specialize (E ltac:(lia) ltac:(lia)).
  eexists. split; [exact E|].
  pose proof (generate_configurations_shape _ _ _ _ _ _ _ _ _ E) as S.
  split; [apply S|apply S].
Defined.

(** ** Requests that cannot be served *)

Lemma build_prior_boxes_flat (min_level max_level num_scales : Z)
    (aspect_ratios : list f64) (anchor_scale : f64) (image_size : Z * Z) :
  min_level <= max_level -> max_level <= 0 ->
  build_prior_boxes min_level max_level num_scales aspect_ratios anchor_scale
    image_size = Raise IndexError.
Proof.
  intros Hlv Hmax. unfold build_prior_boxes.
  rewrite np_repeat_ok by lia. cbn [bind].
  rewrite compute_feature_sizes_flat by exact Hmax. reflexivity.
Qed.

(** X4.  For every request with [min_level <= max_level <= 0] the feature
    sizes are the flat array of the image size and [build_prior_boxes]
    ends in an [IndexError], whatever the other arguments. *)
Theorem level_zero_index_error (min_level max_level num_scales : Z)
    (aspect_ratios : list f64) (anchor_scale : f64) (image_size : Z * Z) :
  min_level <= max_level -> max_level <= 0 ->
  compute_feature_sizes image_size max_level = Flat image_size /\
  build_prior_boxes min_level max_level num_scales aspect_ratios anchor_scale
    image_size = Raise IndexError.
Proof.
  intros Hlv Hmax. split.
  - now apply compute_feature_sizes_flat.
  - now apply build_prior_boxes_flat.
Qed.

Lemma level_zero_index_error_witness :
  compute_feature_sizes (640, 480) (-1) = Flat (640, 480) /\
  build_prior_boxes (-2) (-1) 3 [Fin 1; Fin 2] (Fin 4) (640, 480)
  = Raise IndexError.
Proof.
  apply (level_zero_index_error (-2) (-1) 3 [Fin 1; Fin 2] (Fin 4) (640, 480));
    lia.
Defined.

Lemma chunks_nil {A : Type} (k : nat) : chunks k 0 (@nil A) = repeat [] k.
Proof. induction k as [|k IH]; simpl; [reflexivity|]. now rewrite IH. Qed.

Lemma np_reshape_rows_nil {A : Type} (n : Z) :
  0 < n -> np_reshape_rows (@nil A) n = Ok (repeat [] (Z.to_nat n)).
Proof.
  intros Hn. unfold np_reshape_rows. cbn [length Z.of_nat].
  destruct (Z.leb_spec n 0); [lia|].
  rewrite Z.mod_0_l, Z.div_0_l by lia. simpl. now rewrite chunks_nil.
Qed.

Lemma np_repeat_zero {A : Type} (l : list A) : np_repeat l 0 = Ok [].
Proof.
  rewrite np_repeat_ok by lia. f_equal.
  induction l as [|a l IH]; simpl; auto.
Qed.

Lemma np_repeat_nil {A : Type} (n : Z) : 0 <= n -> np_repeat (@nil A) n = Ok [].
Proof. reflexivity. Qed.

(** Without combinations every array of the configuration has empty rows. *)
Lemma generate_configurations_empty (W H min_level max_level num_scales : Z)
    (aspect_ratios anchor_scales : list f64) :
  min_level <= max_level -> 1 <= max_level ->
  num_scales <= 0 \/ aspect_ratios = [] ->
  generate_configurations (compute_feature_sizes (W, H) max_level) min_level
    max_level num_scales aspect_ratios anchor_scales =
  Ok ({| cfg_strides_y := repeat [] (Z.to_nat (max_level + 1 - min_level));
         cfg_strides_x := repeat [] (Z.to_nat (max_level + 1 - min_level));
         cfg_octave_scales := repeat [] (Z.to_nat (max_level + 1 - min_level));
         cfg_aspects := repeat [] (Z.to_nat (max_level + 1 - min_level));
         cfg_anchor_scales := repeat [] (Z.to_nat (max_level + 1 - min_level)) |},
      max_level + 1 - min_level, 0).
Proof.
  intros Hlv Hmax Hnone. unfold generate_configurations.
  assert (Hc : Z.of_nat (length (py_range num_scales))
               * Z.of_nat (length aspect_ratios) = 0).
  { destruct Hnone as [Hns | ->]; [|simpl; lia].
    unfold py_range. replace (Z.to_nat num_scales) with 0%nat by lia.
    reflexivity. }
  rewrite Hc. rewrite compute_feature_sizes_rows by exact Hmax.
  unfold build_features. rewrite !np_repeat_zero. cbn [bind].
  assert (Eo : build_octaves num_scales aspect_ratios
                 (max_level + 1 - min_level)
               = Ok (repeat [] (Z.to_nat (max_level + 1 - min_level)))).
  { unfold build_octaves.
    replace (np_repeat (py_range num_scales) (Z.of_nat (length aspect_ratios)))
      with (@Ok (list nat) []).
    - cbn [bind np_tile map]. apply np_reshape_rows_nil. lia.
    - destruct Hnone as [Hns | ->].
      + unfold py_range. replace (Z.to_nat num_scales) with 0%nat by lia.
        symmetry. apply np_repeat_nil. lia.
      + symmetry. apply np_repeat_zero. }
  assert (Ea : build_aspects aspect_ratios num_scales
                 (max_level + 1 - min_level)
               = Ok (repeat [] (Z.to_nat (max_level + 1 - min_level)))).
  { unfold build_aspects.
    replace (np_tile aspect_ratios (Z.of_nat (length (py_range num_scales))))
      with (@Ok (list f64) []).
    - cbn [bind np_tile]. apply np_reshape_rows_nil. lia.
    - destruct Hnone as [Hns | ->]; [|reflexivity].
      unfold py_range. replace (Z.to_nat num_scales) with 0%nat by lia.
      rewrite np_tile_ok by (simpl; lia). reflexivity. }
  rewrite Eo, Ea. cbn [bind]. unfold build_strides, build_scales.
  cbn [seq map]. rewrite np_repeat_zero. cbn [bind].
  rewrite !np_reshape_rows_nil by lia. reflexivity.
Qed.

Lemma generate_anchors_empty (W H min_level max_level num_scales : Z)
    (aspect_ratios anchor_scales : list f64) :
  min_level <= max_level -> 1 <= max_level ->
  num_scales <= 0 \/ aspect_ratios = [] ->
  generate_anchors (compute_feature_sizes (W, H) max_level) min_level max_level
    num_scales aspect_ratios (W, H) anchor_scales = Raise ValueError.
Proof.
  intros Hlv Hmax Hnone. unfold generate_anchors.
  rewrite generate_configurations_empty by assumption. cbn [bind].
  cbn [cfg_strides_y cfg_strides_x cfg_octave_scales cfg_aspects
       cfg_anchor_scales].
  unfold py_range.
  destruct (Z.to_nat (max_level + 1 - min_level)) as [|n] eqn:En; [lia|].
  reflexivity.
Qed.

(** X5.  With no combination to generate (no aspect ratio, or
    [num_scales <= 0]) and levels [min_level <= max_level], [max_level >= 1],
    [generate_anchors] and [build_prior_boxes] end in a [ValueError]: the
    list of per-combination arrays of the first level is empty and cannot
    be concatenated. *)
Theorem no_combination_value_error (min_level max_level num_scales : Z)
    (aspect_ratios : list f64) (anchor_scale : f64) (image_size : Z * Z) :
  min_level <= max_level -> 1 <= max_level ->
  num_scales <= 0 \/ aspect_ratios = [] ->
  (forall anchor_scales,
      generate_anchors (compute_feature_sizes image_size max_level) min_level
        max_level num_scales aspect_ratios image_size anchor_scales
      = Raise ValueError) /\
  build_prior_boxes min_level max_level num_scales aspect_ratios anchor_scale
    image_size = Raise ValueError.
Proof.
  destruct image_size as [W H]. intros Hlv Hmax Hnone. split.
  - intros anchor_scales. now apply generate_anchors_empty.
  - unfold build_prior_boxes. rewrite np_repeat_ok by lia. cbn [bind].
    now rewrite generate_anchors_empty.
Qed.

Lemma no_combination_value_error_witness :
  (forall anchor_scales,
      generate_anchors (compute_feature_sizes (512, 512) 7) 3 7 3 []
        (512, 512) anchor_scales = Raise ValueError) /\
  build_prior_boxes 3 7 3 [] (Fin 4) (512, 512) = Raise ValueError.
Proof.
  apply (no_combination_value_error 3 7 3 [] (Fin 4) (512, 512)); try lia.
  right. reflexivity.
Defined.

Lemma index_short {A : Type} (l : list A) :
  index l (length l) = Raise IndexError.
Proof.
  unfold index. destruct (nth_error l (length l)) eqn:E; [|reflexivity].
  assert (nth_error l (length l) = None) by (apply nth_error_None; lia).
  congruence.
Qed.

Lemma index_in {A : Type} (l : list A) (i : nat) (a : A) :
  index l i = Ok a -> In a l.
Proof.
  unfold index. destruct (nth_error l i) eqn:E; [|discriminate].
  intros [= <-]. eapply nth_error_In, E.
Qed.

(** A row shorter than the number of combinations stops the level. *)
Lemma generate_level_boxes_short (sy sx oc ar sc : list f64)
    (image_size : Z * Z) (count : Z) :
  Z.of_nat (length sy) < count \/ Z.of_nat (length sc) < count ->
  is_ok (generate_level_boxes sy sx oc ar sc image_size count) = false.
Proof.
  intros Hshort. unfold generate_level_boxes.
  destruct Hshort as [Hs|Hs].
  - apply (for_each_raises _ _ (length sy)).
    + unfold py_range. apply in_seq. lia.
    + now rewrite index_short.
  - apply (for_each_raises _ _ (length sc)).
    + unfold py_range. apply in_seq. lia.
    + do 4 (apply is_ok_bind_false; intros ? _).
      now rewrite index_short.
Qed.

Lemma generate_level_boxes_none (sy sx oc ar sc : list f64)
    (image_size : Z * Z) :
  generate_level_boxes sy sx oc ar sc image_size 0 = Ok [].
Proof. reflexivity. Qed.

Lemma generate_configurations_levels (feature_sizes : feature_array)
    (min_level max_level num_scales : Z) (aspect_ratios anchor_scale : list f64)
    (cfg : configuration) (num_levels count : Z) :
  generate_configurations feature_sizes min_level max_level num_scales
    aspect_ratios anchor_scale = Ok (cfg, num_levels, count) ->
  1 <= num_levels /\ num_levels = max_level + 1 - min_level /\
  count = Z.of_nat (length (py_range num_scales))
          * Z.of_nat (length aspect_ratios).
Proof.
  unfold generate_configurations.
  destruct (build_features _ _ _ _) as [[features_H features_W]|];
    [|discriminate].
  cbn [bind]. destruct (build_octaves _ _ _) as [oc|] eqn:Eo; [|discriminate].
  cbn [bind]. destruct (build_aspects _ _ _) as [ar|]; [|discriminate].
  cbn [bind]. destruct (build_strides _ _ _ _) as [[sy sx]|]; [|discriminate].
  cbn [bind]. destruct (build_scales _ _ _) as [sc|]; [|discriminate].
  cbn [bind]. intros [= <- <- <-].
  apply build_octaves_shape in Eo. lia.
Qed.

(** The level loop cannot finish when the configuration has no combination,
    or when the first row of strides or of anchor scales is too short. *)
Lemma generate_anchors_not_ok (feature_sizes : feature_array)
    (min_level max_level num_scales : Z) (aspect_ratios : list f64)
    (image_size : Z * Z) (anchor_scales : list f64) :
  (forall cfg num_levels count,
      generate_configurations feature_sizes min_level max_level num_scales
        aspect_ratios anchor_scales = Ok (cfg, num_levels, count) ->
      count = 0 \/
      Forall (fun r => Z.of_nat (length r) < count) (cfg_strides_y cfg) \/
      Forall (fun r => Z.of_nat (length r) < count) (cfg_anchor_scales cfg)) ->
  is_ok (generate_anchors feature_sizes min_level max_level num_scales
           aspect_ratios image_size anchor_scales) = false.
Proof.
  intros Hcfg. unfold generate_anchors.
  apply is_ok_bind_false. intros [[cfg num_levels] count] E.
  pose proof (generate_configurations_levels _ _ _ _ _ _ _ _ _ E) as [Hn _].
  specialize (Hcfg _ _ _ E).
  apply is_ok_bind_false. intros boxes_all Eb.
  assert (Hloop : is_ok (for_each
            (fun level =>
               sy <- index (cfg_strides_y cfg) level ;;
               sx <- index (cfg_strides_x cfg) level ;;
               oc <- index (cfg_octave_scales cfg) level ;;
               ar <- index (cfg_aspects cfg) level ;;
               sc <- index (cfg_anchor_scales cfg) level ;;
               boxes_level <- generate_level_boxes sy sx oc ar sc image_size
                                count ;;
               boxes_level <- np_concatenate_axis1 boxes_level ;;
               Ok (flatten boxes_level))
            (py_range num_levels)) = false).
  { apply (for_each_raises _ _ 0%nat).
    - unfold py_range. apply in_seq. lia.
    - apply is_ok_bind_false. intros sy Esy.
      apply is_ok_bind_false. intros sx _.
      apply is_ok_bind_false. intros oc _.
      apply is_ok_bind_false. intros ar _.
      apply is_ok_bind_false. intros sc Esc.
      destruct Hcfg as [-> | [Hs | Hs]].
      + rewrite generate_level_boxes_none. reflexivity.
      + apply is_ok_bind_false. intros boxes_level Eg.
        rewrite Forall_forall in Hs. specialize (Hs sy (index_in _ _ _ Esy)).
        assert (F : is_ok (generate_level_boxes sy sx oc ar sc image_size count)
                    = false)
          by (apply generate_level_boxes_short; now left).
        rewrite Eg in F. discriminate.
      + apply is_ok_bind_false. intros boxes_level Eg.
        rewrite Forall_forall in Hs. specialize (Hs sc (index_in _ _ _ Esc)).
        assert (F : is_ok (generate_level_boxes sy sx oc ar sc image_size count)
                    = false)
          by (apply generate_level_boxes_short; now right).
        rewrite Eg in F. discriminate. }
  rewrite Eb in Hloop. discriminate.
Qed.

Lemma py_slice_length {A : Type} (l : list A) (start stop : Z) :
  (length (py_slice l start stop) <= length l)%nat.
Proof.
  unfold py_slice. rewrite length_firstn, length_skipn. lia.
Qed.

(** With a negative [min_level] the slice of the feature sizes has fewer
    rows than there are levels, and the rows of strides come out too
    short. *)
Lemma configuration_strides_short (W H min_level max_level num_scales : Z)
    (aspect_ratios anchor_scales : list f64) (cfg : configuration)
    (num_levels count : Z) :
  generate_configurations (compute_feature_sizes (W, H) max_level) min_level
    max_level num_scales aspect_ratios anchor_scales
  = Ok (cfg, num_levels, count) ->
  min_level < 0 -> 1 <= max_level ->
  count = 0 \/ Forall (fun r => Z.of_nat (length r) < count) (cfg_strides_y cfg).
Proof.
  intros E Hmin Hmax.
  pose proof (generate_configurations_levels _ _ _ _ _ _ _ _ _ E)
    as [Hn [Hnum Hcount]].
  revert E. rewrite compute_feature_sizes_rows by exact Hmax.
  unfold generate_configurations. rewrite <- Hcount, <- Hnum.
  unfold build_features.
  set (rows := map (fun j => (feature_at j W, feature_at j H))
                   (seq 0 (S (Z.to_nat max_level)))).
  pose proof (py_slice_length rows min_level (max_level + 1)) as Hslice.
  unfold rows in Hslice at 2. rewrite length_map, length_seq in Hslice.
  destruct (np_repeat (map fst _) count) as [features_H|] eqn:EH;
    [|discriminate].
  cbn [bind]. destruct (np_repeat (map snd _) count) as [features_W|];
    [|discriminate].
  cbn [bind]. destruct (build_octaves _ _ _) as [oc|]; [|discriminate].
  cbn [bind]. destruct (build_aspects _ _ _) as [ar|]; [|discriminate].
  cbn [bind]. unfold build_strides, rows. cbn [seq map].
  destruct (np_reshape_rows (map _ features_H) _) as [ry|] eqn:Ey;
    [|discriminate].
  cbn [bind]. destruct (np_reshape_rows (map _ features_W) _) as [rx|];
    [|discriminate].
  cbn [bind]. destruct (build_scales _ _ _) as [sc|]; [|discriminate].
  cbn [bind]. intros [= <-]. cbn [cfg_strides_y].
  apply np_repeat_length in EH.
  assert (Hc : 0 <= count) by (rewrite Hcount; lia).
  rewrite length_map in EH.
  apply np_reshape_rows_shape in Ey. destruct Ey as [_ [_ Hrows]].
  rewrite length_map in Hrows.
  destruct (Z.eq_dec count 0) as [|Hnz]; [now left|right].
  eapply Forall_impl; [|exact Hrows]. intros r Hr. simpl in Hr. nia.
Qed.

(** With fewer anchor scales than levels the rows of anchor scales come out
    too short. *)
Lemma configuration_scales_short (feature_sizes : feature_array)
    (min_level max_level num_scales : Z) (aspect_ratios anchor_scales : list f64)
    (cfg : configuration) (num_levels count : Z) :
  generate_configurations feature_sizes min_level max_level num_scales
    aspect_ratios anchor_scales = Ok (cfg, num_levels, count) ->
  Z.of_nat (length anchor_scales) < max_level + 1 - min_level ->
  count = 0 \/
  Forall (fun r => Z.of_nat (length r) < count) (cfg_anchor_scales cfg).
Proof.
  intros E Hfew.
  pose proof (generate_configurations_levels _ _ _ _ _ _ _ _ _ E)
    as [Hn [Hnum Hcount]].
  revert E. unfold generate_configurations. rewrite <- Hcount, <- Hnum.
  destruct (build_features _ _ _ _) as [[features_H features_W]|];
    [|discriminate].
  cbn [bind]. destruct (build_octaves _ _ _) as [oc|]; [|discriminate].
  cbn [bind]. destruct (build_aspects _ _ _) as [ar|]; [|discriminate].
  cbn [bind]. destruct (build_strides _ _ _ _) as [[sy sx]|]; [|discriminate].
  cbn [bind]. unfold build_scales.
  destruct (np_repeat _ _) as [repeated|] eqn:Er; [|discriminate].
  cbn [bind]. destruct (np_reshape_rows _ _) as [sc|] eqn:Es; [|discriminate].
  cbn [bind]. intros [= <-]. cbn [cfg_anchor_scales].
  apply np_repeat_length in Er.
  assert (Hc : 0 <= count) by (rewrite Hcount; lia).
  apply np_reshape_rows_shape in Es. destruct Es as [_ [_ Hrows]].
  destruct (Z.eq_dec count 0) as [|Hnz]; [now left|right].
  eapply Forall_impl; [|exact Hrows]. intros r Hr. simpl in Hr. nia.
Qed.

Lemma build_prior_boxes_reversed (min_level max_level num_scales : Z)
    (aspect_ratios : list f64) (anchor_scale : f64) (image_size : Z * Z) :
  max_level < min_level ->
  is_ok (build_prior_boxes min_level max_level num_scales aspect_ratios
           anchor_scale image_size) = false.
Proof.
  intros Hlt. unfold build_prior_boxes.
  apply is_ok_bind_false. intros anchor_scales _.
  apply is_ok_bind_false. intros prior_boxes E.
  unfold generate_anchors in E.
  destruct (generate_configurations_reversed
              (compute_feature_sizes image_size max_level) min_level max_level
              num_scales aspect_ratios anchor_scales Hlt) as [R|R];
    rewrite R in E; discriminate.
Qed.

(** X6.  [build_prior_boxes] returns an array only for level indices
    [0 <= min_level <= max_level] with [max_level >= 1], at least one scale
    and at least one aspect ratio; every other request ends in an
    exception. *)
Theorem build_prior_boxes_returns_only_if (min_level max_level num_scales : Z)
    (aspect_ratios : list f64) (anchor_scale : f64) (image_size : Z * Z)
    (boxes : list box) :
  build_prior_boxes min_level max_level num_scales aspect_ratios anchor_scale
    image_size = Ok boxes ->
  0 <= min_level <= max_level /\ 1 <= max_level /\ 1 <= num_scales /\
  aspect_ratios <> [].
Proof.
  intros E.
  assert (Hlv : min_level <= max_level).
  { destruct (Z.le_gt_cases min_level max_level) as [|Hlt]; [assumption|].
    pose proof (build_prior_boxes_reversed min_level max_level num_scales
                  aspect_ratios anchor_scale image_size Hlt) as F.
    rewrite E in F. discriminate. }
  assert (Hmax : 1 <= max_level).
  { destruct (Z.le_gt_cases 1 max_level) as [|Hlt]; [assumption|].
    rewrite build_prior_boxes_flat in E by lia. discriminate. }
  destruct image_size as [W H].
  assert (Hcomb : 1 <= num_scales /\ aspect_ratios <> []).
  { destruct (Z.le_gt_cases 1 num_scales) as [Hns|Hns].
    - split; [exact Hns|]. intros ->.
      unfold build_prior_boxes in E. rewrite np_repeat_ok in E by lia.
      cbn [bind] in E. rewrite generate_anchors_empty in E; auto; discriminate.
    - unfold build_prior_boxes in E. rewrite np_repeat_ok in E by lia.
      cbn [bind] in E.
      rewrite generate_anchors_empty in E; try assumption;
        [discriminate|left; lia]. }
  destruct Hcomb as [Hns Hne].
  repeat split; try assumption.
  destruct (Z.le_gt_cases 0 min_level) as [|Hneg]; [assumption|].
  unfold build_prior_boxes in E. rewrite np_repeat_ok in E by lia.
  cbn [bind] in E.
  match type of E with
  | bind ?m _ = _ => assert (F : is_ok m = false)
  end.
  { apply generate_anchors_not_ok. intros cfg num_levels count Ec.
    destruct (configuration_strides_short _ _ _ _ _ _ _ _ _ _ Ec Hneg Hmax);
      auto. }
  match type of E with
  | bind ?m _ = _ => destruct m; [discriminate F|discriminate E]
  end.
Qed.

Lemma build_prior_boxes_returns_only_if_witness :
  exists boxes,
    build_prior_boxes 1 2 1 [Fin 1] (Fin 4) (4, 4) = Ok boxes /\
    0 <= 1 <= 2 /\ 1 <= 2 /\ 1 <= 1 /\ [Fin 1] <> [].
Proof.
  eexists. split.
  - apply build_prior_boxes_loops; simpl; try lia; discriminate.
  - eapply (build_prior_boxes_returns_only_if 1 2 1 [Fin 1] (Fin 4) (4, 4)).
    apply build_prior_boxes_loops; simpl; try lia; discriminate.
Defined.

(** X7.  [generate_anchors] called with fewer anchor scales than levels
    never returns: the reshape of the scales is refused, or a row of scales
    is shorter than the number of combinations and the lookup fails. *)
Theorem fewer_scales_than_levels (feature_sizes : feature_array)
    (min_level max_level num_scales : Z) (aspect_ratios : list f64)
    (image_size : Z * Z) (anchor_scales : list f64) :
  Z.of_nat (length anchor_scales) < max_level + 1 - min_level ->
  is_ok (generate_anchors feature_sizes min_level max_level num_scales
           aspect_ratios image_size anchor_scales) = false.
Proof.
  intros Hfew. apply generate_anchors_not_ok.
  intros cfg num_levels count E.
  destruct (configuration_scales_short _ _ _ _ _ _ _ _ _ E Hfew); auto.
Qed.

Lemma fewer_scales_than_levels_witness :
  is_ok (generate_anchors (compute_feature_sizes (512, 512) 7) 3 7 3
           [Fin 1; Fin 2] (512, 512) [Fin 4; Fin 4; Fin 4; Fin 4]) = false.
Proof.
  apply (fewer_scales_than_levels (compute_feature_sizes (512, 512) 7) 3 7 3
           [Fin 1; Fin 2] (512, 512) [Fin 4; Fin 4; Fin 4; Fin 4]).
  simpl. lia.
Defined.

(** ** Degenerate strides and extents *)

(** X8.  A stride of zero along x or along y makes
    [compute_box_coordinates] fail: the length of the axis cannot be
    computed. *)
Theorem zero_stride_raises (stride_y stride_x octave_scale aspect
    anchor_scale : f64) (image_size : Z * Z) :
  stride_x = Fin 0 \/ stride_y = Fin 0 ->
  is_ok (compute_box_coordinates stride_y stride_x octave_scale aspect
           anchor_scale image_size) = false.
Proof.
  intros Hz. destruct image_size as [W H]. unfold compute_box_coordinates.
  destruct (compute_aspect_ratio aspect) as [aspect_x aspect_y].
  apply is_ok_bind_false. intros x Ex.
  destruct Hz as [-> | ->].
  - pose proof (np_arange_zero_step (fdiv (Fin 0) (Fin 2)) (of_int H)) as F.
    rewrite Ex in F. discriminate.
  - apply is_ok_bind_false. intros y Ey.
    pose proof (np_arange_zero_step (fdiv (Fin 0) (Fin 2)) (of_int W)) as F.
    rewrite Ey in F. discriminate.
Qed.

Lemma zero_stride_raises_witness :
  is_ok (compute_box_coordinates (Fin 8) (Fin 0) (Fin 0) (Fin 1) (Fin 4)
           (512, 512)) = false.
Proof.
  apply (zero_stride_raises (Fin 8) (Fin 0) (Fin 0) (Fin 1) (Fin 4) (512, 512)).
  left. reflexivity.
Defined.

(** X9.  For otherwise valid arguments, an image with a zero height or a
    zero width makes [build_prior_boxes] end in a [ValueError]: the stride
    of that dimension is nan and the length of its axis cannot be
    computed. *)
Theorem zero_dimension_value_error (min_level max_level num_scales : Z)
    (aspect_ratios : list f64) (anchor_scale : f64) (image_size : Z * Z) :
  0 <= min_level <= max_level -> 1 <= max_level -> 1 <= num_scales ->
  aspect_ratios <> [] ->
  0 <= fst image_size -> 0 <= snd image_size ->
  fst image_size = 0 \/ snd image_size = 0 ->
  build_prior_boxes min_level max_level num_scales aspect_ratios anchor_scale
    image_size = Raise ValueError.
Proof.
  destruct image_size as [W H]. simpl fst. simpl snd.
  intros Hlv Hmax Hns Hne HW HH Hz. unfold build_prior_boxes.
  rewrite np_repeat_ok by lia. cbn [bind map concat]. rewrite app_nil_r.
  replace (max_level - min_level + 1) with (max_level + 1 - min_level) by lia.
  unfold generate_anchors.
  rewrite generate_configurations_rows by assumption. cbn [bind].
  cbn [cfg_strides_y cfg_strides_x cfg_octave_scales cfg_aspects
       cfg_anchor_scales].
  remember (length (py_range num_scales) * length aspect_ratios)%nat
    as count eqn:Ecount.
  assert (Hcount : (1 <= count)%nat).
  { rewrite Ecount. unfold py_range. rewrite length_seq.
    destruct aspect_ratios; [congruence|]. simpl. nia. }
  unfold py_range at 1, levels.
  destruct (Z.to_nat (max_level + 1 - min_level)) as [|n] eqn:En; [lia|].
  cbn [seq for_each map repeat index nth_error bind].
  unfold generate_level_boxes, py_range. rewrite Nat2Z.id.
  destruct count as [|c]; [lia|].
  cbn [seq for_each repeat index nth_error bind].
  destruct (octave_row num_scales aspect_ratios) as [|o orow] eqn:Eo.
  { apply (f_equal (@length _)) in Eo. rewrite length_octave_row in Eo.
    unfold py_range in Eo, Ecount. rewrite <- Ecount in Eo. discriminate. }
  destruct (aspect_row num_scales aspect_ratios) as [|a arow] eqn:Ea.
  { apply (f_equal (@length _)) in Ea. rewrite length_aspect_row in Ea.
    unfold py_range in Ea, Ecount. rewrite <- Ecount in Ea. discriminate. }
  cbn [index nth_error bind].
  rewrite compute_box_coordinates_zero_extent by assumption.
  reflexivity.
Qed.

Lemma zero_dimension_value_error_witness :
  build_prior_boxes 3 7 3 [Fin 1; Fin 2] (Fin 4) (0, 512) = Raise ValueError.
Proof.
  apply (zero_dimension_value_error 3 7 3 [Fin 1; Fin 2] (Fin 4) (0, 512));
    simpl; try lia; try discriminate.
Defined.

(** ** Strides and octave scales of a configuration *)

Open Scope R_scope.

Lemma stride_cover (base feature : Z) :
  (1 <= feature)%Z ->
  exists r, stride_of base feature = Fin r /\ r * IZR feature = IZR base.
Proof.
  intros Hf. rewrite stride_of_fin by lia. eexists. split; [reflexivity|].
  apply IZR_pos in Hf. field. lra.
Qed.

Lemma feature_at_divides (k : nat) (x : Z) :
  (1 <= x)%Z -> (2 ^ Z.of_nat k | x)%Z ->
  (feature_at k x * 2 ^ Z.of_nat k = x)%Z.
Proof.
  intros Hx [q Hq]. pose proof (feature_at_ceiling k x) as Hc.
  assert (Hp : (0 < 2 ^ Z.of_nat k)%Z) by (apply Z.pow_pos_nonneg; lia).
  subst x. destruct Hc as [Hlo Hhi].
  apply Z.mul_le_mono_pos_r in Hlo; [|exact Hp].
  replace (q * 2 ^ Z.of_nat k + 2 ^ Z.of_nat k)%Z
    with ((q + 1) * 2 ^ Z.of_nat k)%Z in Hhi by ring.
  apply Z.mul_lt_mono_pos_r in Hhi; [|exact Hp].
  f_equal. lia.
Qed.

(** The stride of a level that divides a power-of-two extent. *)
Lemma stride_power_of_two (a k : nat) :
  (k <= a)%nat ->
  stride_of (2 ^ Z.of_nat a) (feature_at k (2 ^ Z.of_nat a))
  = Fin (IZR (2 ^ Z.of_nat k)).
Proof.
  intros Hk.
  assert (Hx : (1 <= 2 ^ Z.of_nat a)%Z)
    by (pose proof (Z.pow_pos_nonneg 2 (Z.of_nat a)); lia).
  assert (Hd : (2 ^ Z.of_nat k | 2 ^ Z.of_nat a)%Z).
  { exists (2 ^ (Z.of_nat a - Z.of_nat k))%Z.
    rewrite <- Z.pow_add_r by lia. f_equal. lia. }
  pose proof (feature_at_divides k _ Hx Hd) as E.
  pose proof (feature_at_pos k _ Hx) as Hf.
  destruct (stride_cover (2 ^ Z.of_nat a) _ Hf) as [r [-> Hr]].
  f_equal. apply (f_equal IZR) in E. rewrite mult_IZR in E.
  apply IZR_pos in Hf.
  apply (Rmult_eq_reg_r (IZR (feature_at k (2 ^ Z.of_nat a)))); [|lra].
  rewrite Hr, <- E. ring.
Qed.

(** X11.  For an image whose extents are the powers of two [2^a] and [2^b],
    with exponents up to 53, and levels that do not exceed the exponents,
    the strides of the configuration are powers of two: at level [k] every
    stride along y and along x is [2^k]. *)
Theorem configuration_strides (a b : nat) (min_level max_level num_scales : Z)
    (aspect_ratios : list f64) (anchor_scale : f64) :
  (0 <= min_level <= max_level)%Z -> (1 <= max_level)%Z ->
  (max_level <= Z.of_nat a <= 53)%Z -> (max_level <= Z.of_nat b <= 53)%Z ->
  exists cfg num_levels count,
    generate_configurations
      (compute_feature_sizes (2 ^ Z.of_nat a, 2 ^ Z.of_nat b)%Z max_level)
      min_level max_level num_scales aspect_ratios
      (repeat anchor_scale (Z.to_nat (max_level + 1 - min_level)))
    = Ok (cfg, num_levels, count) /\
    cfg_strides_y cfg =
      map (fun k => repeat (Fin (IZR (2 ^ Z.of_nat k))) (Z.to_nat count))
          (levels min_level max_level) /\
    cfg_strides_x cfg =
      map (fun k => repeat (Fin (IZR (2 ^ Z.of_nat k))) (Z.to_nat count))
          (levels min_level max_level).
Proof.
  intros Hlv Hmax Ha Hb. do 3 eexists.
  split; [now apply generate_configurations_rows|].
  cbn [cfg_strides_y cfg_strides_x]. rewrite Nat2Z.id.
  split; apply map_ext_in; intros k Hk; unfold levels in Hk;
    apply in_seq in Hk; f_equal; apply stride_power_of_two; lia.
Qed.

Lemma configuration_strides_witness :
  exists cfg num_levels count,
    generate_configurations
      (compute_feature_sizes (2 ^ Z.of_nat 9, 2 ^ Z.of_nat 9)%Z 7) 3 7 3
      [Fin 1; Fin 2] (repeat (Fin 4) (Z.to_nat (7 + 1 - 3)))
    = Ok (cfg, num_levels, count) /\
    cfg_strides_y cfg =
      map (fun k => repeat (Fin (IZR (2 ^ Z.of_nat k))) (Z.to_nat count))
          (levels 3 7) /\
    cfg_strides_x cfg =
      map (fun k => repeat (Fin (IZR (2 ^ Z.of_nat k))) (Z.to_nat count))
          (levels 3 7).
Proof.
  apply (configuration_strides 9 9 3 7 3 [Fin 1; Fin 2] (Fin 4)); lia.
Defined.

(** X12.  With at least one scale, every octave scale that [build_octaves]
    returns is a number in [0, 1), so that the factor [2 ** octave_scale]
    lies in [1, 2): the scales of a level stay below the next octave. *)
Theorem octave_scales_unit (num_scales : Z) (aspect_ratios : list f64)
    (num_levels : Z) (rows : list (list f64)) :
  build_octaves num_scales aspect_ratios num_levels = Ok rows ->
  (1 <= num_scales)%Z ->
  forall row o, In row rows -> In o row ->
    exists v, o = Fin v /\ 0 <= v < 1 /\
              fpow2 o = Fin (Rpower 2 v) /\ 1 <= Rpower 2 v < 2.
Proof.
  intros E Hns row o Hrow Ho.
  pose proof (build_octaves_shape _ _ _ _ E) as [Hn _].
  rewrite build_octaves_rows in E by exact Hn. injection E as <-.
  apply repeat_spec in Hrow. subst row. unfold octave_row in Ho.
  apply in_map_iff in Ho. destruct Ho as [k [<- Hk]].
  apply in_concat in Hk. destruct Hk as [l [Hl Hk]].
  apply in_map_iff in Hl. destruct Hl as [k' [<- Hk']].
  apply repeat_spec in Hk. subst k.
  unfold py_range in Hk'. apply in_seq in Hk'.
  pose proof (IZR_pos _ Hns) as Hns'.
  assert (H0 : 0 <= IZR (Z.of_nat k')) by (apply IZR_le; lia).
  assert (H1 : IZR (Z.of_nat k') + 1 <= IZR num_scales).
  { rewrite <- plus_IZR. apply IZR_le. lia. }
  exists (IZR (Z.of_nat k') / IZR num_scales).
  assert (Hv : 0 <= IZR (Z.of_nat k') / IZR num_scales < 1).
  { split.
    - apply Rmult_le_pos; [exact H0|].
      apply Rlt_le, Rinv_0_lt_compat. lra.
    - apply (Rmult_lt_reg_r (IZR num_scales)); [lra|].
      unfold Rdiv. rewrite Rmult_assoc, Rinv_l by lra. lra. }
  assert (Eo : fdiv (of_int (Z.of_nat k')) (of_int num_scales)
               = Fin (IZR (Z.of_nat k') / IZR num_scales))
    by (unfold of_int; apply fdiv_fin; lra).
  rewrite Eo. split; [reflexivity|].
  split; [exact Hv|]. split; [reflexivity|].
  split.
  - rewrite <- (Rpower_O 2) at 1 by lra.
    destruct Hv as [[Hv|Hv] _].
    + apply Rlt_le, Rpower_lt; lra.
    + rewrite <- Hv. lra.
  - rewrite <- (Rpower_1 2) at 2 by lra.
    apply Rpower_lt; lra.
Qed.

Lemma octave_scales_unit_witness :
  exists rows,
    build_octaves 3 [Fin 1; Fin 2] 2 = Ok rows /\
    forall row o, In row rows -> In o row ->
      exists v, o = Fin v /\ 0 <= v < 1 /\
                fpow2 o = Fin (Rpower 2 v) /\ 1 <= Rpower 2 v < 2.
Proof.
  eexists. split; [apply build_octaves_rows; lia|].
  apply (octave_scales_unit 3 [Fin 1; Fin 2] 2); [|lia].
  apply build_octaves_rows. lia.
Defined.

Close Scope R_scope.

(** ** One anchor scale per level *)

Lemma build_scales_rows_list (anchor_scales : list f64) (count num_levels : Z) :
  0 < num_levels -> num_levels = Z.of_nat (length anchor_scales) ->
  0 <= count ->
  build_scales anchor_scales count num_levels =
  Ok (map (fun a => repeat a (Z.to_nat count)) anchor_scales).
Proof.
  intros Hn Hlen Hc. unfold build_scales.
  rewrite np_repeat_ok by exact Hc. cbn [bind].
  apply (np_reshape_rows_map _ _ (Z.to_nat count)); auto.
  intros a. apply repeat_length.
Qed.

Lemma generate_configurations_rows_list (W H min_level max_level num_scales : Z)
    (aspect_ratios anchor_scales : list f64) :
  0 <= min_level <= max_level -> 1 <= max_level ->
  Z.of_nat (length anchor_scales) = max_level + 1 - min_level ->
  let num_levels := max_level + 1 - min_level in
  let count := (length (py_range num_scales) * length aspect_ratios)%nat in
  generate_configurations (compute_feature_sizes (W, H) max_level) min_level
    max_level num_scales aspect_ratios anchor_scales =
  Ok ({| cfg_strides_y :=
           map (fun k => repeat (stride_of W (feature_at k W)) count)
               (levels min_level max_level);
         cfg_strides_x :=
           map (fun k => repeat (stride_of H (feature_at k H)) count)
               (levels min_level max_level);
         cfg_octave_scales :=
           repeat (octave_row num_scales aspect_ratios) (Z.to_nat num_levels);
         cfg_aspects :=
           repeat (aspect_row num_scales aspect_ratios) (Z.to_nat num_levels);
         cfg_anchor_scales := map (fun a => repeat a count) anchor_scales |},
      num_levels, Z.of_nat count).
Proof.
  intros Hlv Hmax Hlen num_levels count. unfold generate_configurations.
  fold num_levels. rewrite <- Nat2Z.inj_mul. fold count.
  rewrite build_features_rows by lia. cbn [bind].
  rewrite build_octaves_rows by (unfold num_levels; lia). cbn [bind].
  rewrite build_aspects_rows by (unfold num_levels; lia). cbn [bind].
  rewrite Nat2Z.id.
  rewrite (build_strides_rows W H max_level num_levels) by
    (try assumption; unfold levels, num_levels; rewrite ?length_seq; lia).
  cbn [bind].
  rewrite build_scales_rows_list by (unfold num_levels; lia).
  cbn [bind]. rewrite Nat2Z.id. reflexivity.
Qed.

(** X13.  Called with one anchor scale per level, [generate_anchors]
    applies the scale of a level to the boxes of that level and to no
    other: its result is, level by level, the boxes of the level built with
    the scale at the same position. *)
Theorem generate_anchors_per_level (W H min_level max_level num_scales : Z)
    (aspect_ratios anchor_scales : list f64) :
  0 <= min_level <= max_level -> 1 <= max_level -> 1 <= num_scales ->
  aspect_ratios <> [] -> 1 <= W -> 1 <= H ->
  Z.of_nat (length anchor_scales) = max_level + 1 - min_level ->
  generate_anchors (compute_feature_sizes (W, H) max_level) min_level
    max_level num_scales aspect_ratios (W, H) anchor_scales =
  Ok (flat_map
        (fun '(level, anchor_scale) =>
           level_boxes num_scales aspect_ratios anchor_scale (W, H) level)
        (combine (levels min_level max_level) anchor_scales)).
Proof.
  intros Hlv Hmax Hns Hne HW HH Hlen. unfold generate_anchors.
  rewrite generate_configurations_rows_list by assumption. cbn [bind].
  cbn [cfg_strides_y cfg_strides_x cfg_octave_scales cfg_aspects
       cfg_anchor_scales].
  set (n := Z.to_nat (max_level + 1 - min_level)).
  set (count := (length (py_range num_scales) * length aspect_ratios)%nat).
  assert (Hcomb : combinations num_scales aspect_ratios <> []).
  { intros E. apply (f_equal (@length _)) in E.
    rewrite length_combinations in E. simpl in E.
    destruct aspect_ratios; [congruence|]. simpl in E. nia. }
  assert (Ln : length (levels min_level max_level) = length anchor_scales).
  { unfold levels. rewrite length_seq. lia. }
  rewrite (for_each_ext_in _
             (fun p => Ok (level_boxes num_scales aspect_ratios
                             (nth p anchor_scales NaN) (W, H)
                             (nth p (levels min_level max_level) 0%nat)))).
  - rewrite for_each_pure. unfold py_range. fold n.
    replace n with (length (levels min_level max_level))
      by (unfold levels; now rewrite length_seq).
    rewrite (map_nth_combine
               (fun level anchor_scale =>
                  level_boxes num_scales aspect_ratios anchor_scale (W, H) level)
               (levels min_level max_level) anchor_scales 0%nat NaN Ln).
    rewrite flat_map_concat_map. unfold np_vstack.
    destruct (map _ (combine _ _)) as [|b l] eqn:Em; [|reflexivity].
    apply (f_equal (@length _)) in Em.
    rewrite length_map, length_combine, <- Ln, Nat.min_id in Em.
    unfold levels in Em. rewrite length_seq in Em. simpl in Em. lia.
  - intros level Hin. unfold py_range in Hin. apply in_seq in Hin. fold n in Hin.
    unfold levels. fold n.
    rewrite !index_map_seq by lia. rewrite !index_repeat by lia.
    rewrite (index_nth _ _ (repeat NaN count))
      by (rewrite length_map; lia).
    rewrite (nth_map_lt _ _ _ _ NaN) by lia.
    rewrite seq_nth by lia.
    cbn [bind].
    pose proof (generate_level_boxes_level W H
                  (feature_at (Z.to_nat min_level + level) W)
                  (feature_at (Z.to_nat min_level + level) H)
                  (octave_row num_scales aspect_ratios)
                  (aspect_row num_scales aspect_ratios)
                  (nth level anchor_scales NaN)
                  HW HH (feature_at_pos _ _ HW) (feature_at_pos _ _ HH)) as E.
    rewrite length_octave_row, length_aspect_row in E.
    specialize (E eq_refl). cbv zeta in E. fold count in E.
    rewrite E. cbn [bind]. clear E.
    rewrite combine_rows.
    pose (g := fun (c : f64 * f64) (center : f64 * f64) =>
                 corner_box center
                   (half_extent (nth level anchor_scales NaN)
                      (stride_of H (feature_at (Z.to_nat min_level + level) H))
                      (fst c) (fst (compute_aspect_ratio (snd c))) H)
                   (half_extent (nth level anchor_scales NaN)
                      (stride_of W (feature_at (Z.to_nat min_level + level) W))
                      (fst c) (snd (compute_aspect_ratio (snd c))) W)).
    rewrite (map_ext _ (fun c => np_expand_dims
                          (map (g c)
                             (grid_centers
                                (axis_centers
                                   (stride_of H (feature_at (Z.to_nat min_level + level) H))
                                   (Z.to_nat (feature_at (Z.to_nat min_level + level) H)))
                                (axis_centers
                                   (stride_of W (feature_at (Z.to_nat min_level + level) W))
                                   (Z.to_nat (feature_at (Z.to_nat min_level + level) W)))
                                W H))))
      by (intros [o a]; reflexivity).
    rewrite np_concatenate_axis1_columns by exact Hcomb.
    cbn [bind]. unfold flatten, level_boxes.
    rewrite flat_map_concat_map. do 2 f_equal.
    apply map_ext. intros center. apply map_ext. intros [o a]. reflexivity.
Qed.

Lemma generate_anchors_per_level_witness :
  generate_anchors (compute_feature_sizes (4, 4) 2) 1 2 1 [Fin 1] (4, 4)
    [Fin 3; Fin 5] =
  Ok (flat_map
        (fun '(level, anchor_scale) =>
           level_boxes 1 [Fin 1] anchor_scale (4, 4) level)
        (combine (levels 1 2) [Fin 3; Fin 5])).
Proof.
  apply (generate_anchors_per_level 4 4 1 2 1 [Fin 1] [Fin 3; Fin 5]);
    simpl; try lia; discriminate.
Defined.

(** ** Position of a box in the anchor set *)

Lemma nth_concat_at {A : Type} (rows : list (list A)) (p k : nat) (d : A) :
  (p < length rows)%nat -> (k < length (nth p rows []))%nat ->
  nth (length (concat (firstn p rows)) + k) (concat rows) d =
  nth k (nth p rows []) d.
Proof.
  revert p. induction rows as [|row rows IH]; intros p Hp Hk;
    [simpl in Hp; lia|].
  destruct p as [|p]; simpl in *.
  - apply app_nth1. exact Hk.
  - rewrite length_app, <- Nat.add_assoc, app_nth2_plus.
    apply IH; [lia|exact Hk].
Qed.

Lemma concat_at_bound {A : Type} (rows : list (list A)) (p : nat) :
  (p < length rows)%nat ->
  (length (concat (firstn p rows)) + length (nth p rows [])
   <= length (concat rows))%nat.
Proof.
  revert p. induction rows as [|row rows IH]; intros p Hp;
    [simpl in Hp; lia|].
  destruct p as [|p]; simpl in *.
  - rewrite length_app. lia.
  - rewrite !length_app. specialize (IH p ltac:(lia)). lia.
Qed.

Lemma length_level_boxes_nat (num_scales : Z) (aspect_ratios : list f64)
    (anchor_scale : f64) (image_size : Z * Z) (level : nat) :
  1 <= fst image_size -> 1 <= snd image_size -> 0 <= num_scales ->
  length (level_boxes num_scales aspect_ratios anchor_scale image_size level)
  = level_size num_scales aspect_ratios image_size level.
Proof.
  intros HW HH Hns. apply Nat2Z.inj.
  rewrite length_level_boxes by assumption. unfold level_size, grid_points.
  pose proof (feature_at_pos level _ HW). pose proof (feature_at_pos level _ HH).
  rewrite !Nat2Z.inj_mul, !Z2Nat.id by nia. ring.
Qed.

Lemma nth_grid_centers (xs ys : list f64) (W H : Z) (i j : nat) :
  (i < length ys)%nat -> (j < length xs)%nat ->
  nth (i * length xs + j) (grid_centers xs ys W H) (NaN, NaN) =
  (fdiv (nth j xs NaN) (of_int H), fdiv (nth i ys NaN) (of_int W)).
Proof.
  intros Hi Hj. unfold grid_centers. rewrite flat_map_concat_map.
  rewrite nth_concat_uniform;
    [|apply Forall_map_const; intros; apply length_map|exact Hj].
  rewrite (nth_map_lt _ ys i [] NaN) by exact Hi.
  now rewrite (nth_map_lt _ xs j (NaN, NaN) NaN) by exact Hj.
Qed.

Lemma nth_combinations (num_scales : Z) (aspect_ratios : list f64) (k q : nat) :
  Z.of_nat k < num_scales -> (q < length aspect_ratios)%nat ->
  nth (k * length aspect_ratios + q) (combinations num_scales aspect_ratios)
      (NaN, NaN) =
  (fdiv (of_int (Z.of_nat k)) (of_int num_scales), nth q aspect_ratios NaN).
Proof.
  intros Hk Hq. unfold combinations. rewrite flat_map_concat_map.
  rewrite nth_concat_uniform;
    [|apply Forall_map_const; intros; apply length_map|exact Hq].
  rewrite (nth_map_lt _ (py_range num_scales) k [] 0%nat)
    by (unfold py_range; rewrite length_seq; lia).
  rewrite (nth_map_lt _ aspect_ratios q (NaN, NaN) NaN) by exact Hq.
  unfold py_range. rewrite seq_nth by lia. reflexivity.
Qed.

Lemma nth_level_boxes (num_scales : Z) (aspect_ratios : list f64)
    (anchor_scale : f64) (W H : Z) (level g c : nat) (d : box) :
  let grid := grid_centers
                (axis_centers (stride_of H (feature_at level H))
                   (Z.to_nat (feature_at level H)))
                (axis_centers (stride_of W (feature_at level W))
                   (Z.to_nat (feature_at level W))) W H in
  let combos := combinations num_scales aspect_ratios in
  (g < length grid)%nat -> (c < length combos)%nat ->
  nth (g * length combos + c)
      (level_boxes num_scales aspect_ratios anchor_scale (W, H) level) d =
  corner_box (nth g grid (NaN, NaN))
    (half_extent anchor_scale (stride_of H (feature_at level H))
       (fst (nth c combos (NaN, NaN)))
       (fst (compute_aspect_ratio (snd (nth c combos (NaN, NaN))))) H)
    (half_extent anchor_scale (stride_of W (feature_at level W))
       (fst (nth c combos (NaN, NaN)))
       (snd (compute_aspect_ratio (snd (nth c combos (NaN, NaN))))) W).
Proof.
  intros grid combos Hg Hc. unfold level_boxes. fold grid. fold combos.
  rewrite flat_map_concat_map.
  rewrite nth_concat_uniform;
    [|apply Forall_map_const; intros; apply length_map|exact Hc].
  rewrite (nth_map_lt _ grid g [] (NaN, NaN)) by exact Hg.
  rewrite (nth_map_lt _ combos c d (NaN, NaN)) by exact Hc.
  destruct (nth c combos (NaN, NaN)) as [o a]. reflexivity.
Qed.

Lemma nth_axis_centers_stride (stride : f64) (n i : nat) :
  (i < n)%nat ->
  nth i (axis_centers stride n) NaN =
  fadd (fdiv stride (Fin 2)) (fmul (of_int (Z.of_nat i)) stride).
Proof.
  intros Hi. unfold axis_centers.
  rewrite (nth_map_lt _ _ i NaN 0%nat) by now rewrite length_seq.
  now rewrite seq_nth by exact Hi.
Qed.

(** X14.  Position of a box.  For a valid request, the box of the level
    number [p], of the grid cell in row [i] and column [j], of the scale
    number [k] and of the aspect ratio number [q] stands at the position
    [offset(p) + (i * feature_W + j) * combinations + (k * len(aspect_ratios) + q)]
    of the result, where [offset(p)] counts the boxes of the levels before:
    the box there is the center form of the corner box around the center
    [(stride_x / 2 + j * stride_x) / H, (stride_y / 2 + i * stride_y) / W]
    with the half extents of the octave scale [k / num_scales] and of the
    aspect ratio number [q]. *)
Theorem anchor_position (min_level max_level num_scales : Z)
    (aspect_ratios : list f64) (anchor_scale aspect : f64) (W H : Z)
    (p i j k q : nat) :
  0 <= min_level <= max_level -> 1 <= max_level ->
  1 <= W -> 1 <= H ->
  Z.of_nat p < max_level + 1 - min_level ->
  let level := (Z.to_nat min_level + p)%nat in
  Z.of_nat i < feature_at level W -> Z.of_nat j < feature_at level H ->
  Z.of_nat k < num_scales ->
  nth_error aspect_ratios q = Some aspect ->
  exists boxes,
    build_prior_boxes min_level max_level num_scales aspect_ratios anchor_scale
      (W, H) = Ok boxes /\
    forall d,
      nth (level_offset num_scales aspect_ratios (W, H) min_level p
           + (i * Z.to_nat (feature_at level H) + j)
             * (Z.to_nat num_scales * length aspect_ratios)
           + (k * length aspect_ratios + q))%nat boxes d =
      let stride_y := stride_of W (feature_at level W) in
      let stride_x := stride_of H (feature_at level H) in
      let octave_scale := fdiv (of_int (Z.of_nat k)) (of_int num_scales) in
      to_center_form_box
        (corner_box
           (fdiv (fadd (fdiv stride_x (Fin 2))
                       (fmul (of_int (Z.of_nat j)) stride_x)) (of_int H),
            fdiv (fadd (fdiv stride_y (Fin 2))
                       (fmul (of_int (Z.of_nat i)) stride_y)) (of_int W))
           (half_extent anchor_scale stride_x octave_scale
              (fst (compute_aspect_ratio aspect)) H)
           (half_extent anchor_scale stride_y octave_scale
              (snd (compute_aspect_ratio aspect)) W)).
Proof.
  intros Hlv Hmax HW HH Hp level Hi Hj Hk Hq.
  assert (Hns : 1 <= num_scales) by lia.
  assert (Hqlen : (q < length aspect_ratios)%nat)
    by (apply nth_error_Some; congruence).
  assert (Hne : aspect_ratios <> []) by (intros ->; simpl in Hqlen; lia).
  pose proof (feature_at_pos level W HW) as HfW.
  pose proof (feature_at_pos level H HH) as HfH.
  eexists. split; [now apply build_prior_boxes_loops|].
  intros d. unfold to_center_form.
  set (nx := Z.to_nat (feature_at level H)).
  set (ny := Z.to_nat (feature_at level W)).
  set (C := (Z.to_nat num_scales * length aspect_ratios)%nat).
  set (g := (i * nx + j)%nat). set (c := (k * length aspect_ratios + q)%nat).
  assert (Hg : (g < ny * nx)%nat) by (unfold g, nx, ny; nia).
  assert (Hc : (c < C)%nat) by (unfold c, C; nia).
  assert (Hlen : length (level_boxes num_scales aspect_ratios anchor_scale
                           (W, H) level) = (ny * nx * C)%nat).
  { rewrite length_level_boxes_nat by (simpl; lia).
    unfold level_size, grid_points, ny, nx, C. simpl fst. simpl snd.
    rewrite Z2Nat.inj_mul by lia. reflexivity. }
  assert (Hin : (g * C + c < ny * nx * C)%nat) by nia.
  set (LB := level_boxes num_scales aspect_ratios anchor_scale (W, H)).
  set (rows := map LB (levels min_level max_level)).
  assert (Hprow : (p < length rows)%nat)
    by (unfold rows, levels; rewrite length_map, length_seq; lia).
  assert (Erow : nth p rows [] = LB level).
  { unfold rows, levels. rewrite (nth_map_lt _ _ _ _ 0%nat)
      by (rewrite length_seq; lia).
    rewrite seq_nth by lia. reflexivity. }
  assert (Eoff : level_offset num_scales aspect_ratios (W, H) min_level p
                 = length (concat (firstn p rows))).
  { unfold level_offset, rows, levels.
    rewrite firstn_map, firstn_seq_le by lia.
    rewrite length_concat, map_map. f_equal. apply map_ext.
    intros l. symmetry. apply length_level_boxes_nat; simpl; lia. }
  unfold corner_anchors. rewrite flat_map_concat_map. fold LB. fold rows.
  rewrite <- Nat.add_assoc, Eoff.
  rewrite (nth_map_lt _ _ _ d (NaN, NaN, NaN, NaN)).
  2:{ pose proof (concat_at_bound rows p Hprow) as Hb.
      rewrite Erow in Hb. unfold LB in Hb at 1. rewrite Hlen in Hb.
      fold g. fold c. unfold box in *. lia. }
  rewrite nth_concat_at; [|exact Hprow|].
  2:{ unfold box in *. rewrite Erow. unfold LB. rewrite Hlen.
      fold g. fold c. lia. }
  unfold box in *. rewrite Erow. unfold LB. fold g. fold c.
  replace C with (length (combinations num_scales aspect_ratios))
    by apply length_combinations.
  rewrite nth_level_boxes.
  2:{ rewrite length_grid_centers, !length_axis_centers. exact Hg. }
  2:{ rewrite length_combinations. exact Hc. }
  unfold g.
  replace nx with (length (axis_centers (stride_of H (feature_at level H)) nx))
    at 1 by apply length_axis_centers.
  rewrite nth_grid_centers
    by (rewrite length_axis_centers; unfold nx, ny; lia).
  unfold c. rewrite nth_combinations by assumption.
  cbn [fst snd].
  rewrite (nth_error_nth _ _ NaN Hq).
  rewrite !nth_axis_centers_stride by (unfold nx, ny; lia).
  reflexivity.
Qed.

Lemma anchor_position_witness :
  exists boxes,
    build_prior_boxes 3 7 3 [Fin 1; Fin 2; Fin (1 / 2)] (Fin 4) (512, 512)
    = Ok boxes /\
    forall d,
      nth (level_offset 3 [Fin 1; Fin 2; Fin (1 / 2)] (512, 512)%Z 3 1
           + (2 * Z.to_nat (feature_at (Z.to_nat 3 + 1) 512) + 5)
             * (Z.to_nat 3 * length [Fin 1; Fin 2; Fin (1 / 2)])
           + (1 * length [Fin 1; Fin 2; Fin (1 / 2)] + 1))%nat boxes d =
      let stride_y := stride_of 512 (feature_at (Z.to_nat 3 + 1) 512) in
      let stride_x := stride_of 512 (feature_at (Z.to_nat 3 + 1) 512) in
      let octave_scale := fdiv (of_int (Z.of_nat 1)) (of_int 3) in
      to_center_form_box
        (corner_box
           (fdiv (fadd (fdiv stride_x (Fin 2))
                       (fmul (of_int (Z.of_nat 5)) stride_x)) (of_int 512),
            fdiv (fadd (fdiv stride_y (Fin 2))
                       (fmul (of_int (Z.of_nat 2)) stride_y)) (of_int 512))
           (half_extent (Fin 4) stride_x octave_scale
              (fst (compute_aspect_ratio (Fin 2))) 512)
           (half_extent (Fin 4) stride_y octave_scale
              (snd (compute_aspect_ratio (Fin 2))) 512)).
Proof.
  apply (anchor_position 3 7 3 [Fin 1; Fin 2; Fin (1 / 2)] (Fin 4) (Fin 2)
           512 512 1 2 5 1 1); try lia; reflexivity.
Defined.

(** ** Composition over level ranges *)

Lemma levels_split (first middle last : Z) :
  0 <= first <= middle -> middle < last ->
  levels first last = levels first middle ++ levels (middle + 1) last.
Proof.
  intros Hfm Hml. unfold levels.
  replace (Z.to_nat (last + 1 - first))
    with (Z.to_nat (middle + 1 - first) + Z.to_nat (last + 1 - (middle + 1)))%nat
    by lia.
  rewrite seq_app. do 2 f_equal. lia.
Qed.

(** X15.  The boxes of a level do not depend on the other levels of the
    request: the anchors of the levels [first .. last] are the anchors of
    [first .. middle] followed by those of [middle + 1 .. last]. *)
Theorem anchors_of_level_ranges (first middle last num_scales : Z)
    (aspect_ratios : list f64) (anchor_scale : f64) (image_size : Z * Z) :
  0 <= first <= middle -> 1 <= middle -> middle < last -> 1 <= num_scales ->
  aspect_ratios <> [] -> 1 <= fst image_size -> 1 <= snd image_size ->
  exists lower upper,
    build_prior_boxes first middle num_scales aspect_ratios anchor_scale
      image_size = Ok lower /\
    build_prior_boxes (middle + 1) last num_scales aspect_ratios anchor_scale
      image_size = Ok upper /\
    build_prior_boxes first last num_scales aspect_ratios anchor_scale
      image_size = Ok (lower ++ upper).
Proof.
  intros Hfm Hm Hml Hns Hne HW HH. do 2 eexists.
  split; [apply build_prior_boxes_loops; assumption || lia|].
  split; [apply build_prior_boxes_loops; assumption || lia|].
  rewrite build_prior_boxes_loops by (assumption || lia).
  unfold to_center_form, corner_anchors.
  rewrite (levels_split first middle last) by lia.
  now rewrite flat_map_app, map_app.
Qed.

Lemma anchors_of_level_ranges_witness :
  exists lower upper,
    build_prior_boxes 3 5 3 [Fin 1; Fin 2] (Fin 4) (512, 512) = Ok lower /\
    build_prior_boxes (5 + 1) 7 3 [Fin 1; Fin 2] (Fin 4) (512, 512) = Ok upper /\
    build_prior_boxes 3 7 3 [Fin 1; Fin 2] (Fin 4) (512, 512)
    = Ok (lower ++ upper).
Proof.
  apply (anchors_of_level_ranges 3 5 7 3 [Fin 1; Fin 2] (Fin 4) (512, 512));
    simpl; try lia; discriminate.
Defined.


(** ** The grid of one combination *)

(** X18.  Whatever the two axes that [np.arange] returns,
    [compute_box_coordinates] returns their grid flattened row by row: with
    [x] the axis along x and [y] the axis along y, both arrays of centers
    have [len(y) * len(x)] entries, entry [i * len(x) + j] is [x[j] / H] in
    the first and [y[i] / W] in the second, where [(W, H)] is the image size
    as the function unpacks it, and the two half extents are those of the
    anchor scale, the octave scale and the aspect ratio. *)
Theorem compute_box_coordinates_grid (stride_y stride_x octave_scale aspect
    anchor_scale : f64) (W H : Z) (x y : list f64) :
  np_arange (fdiv stride_x (Fin 2)) (of_int H) stride_x = Ok x ->
  np_arange (fdiv stride_y (Fin 2)) (of_int W) stride_y = Ok y ->
  exists center_x center_y,
    compute_box_coordinates stride_y stride_x octave_scale aspect anchor_scale
      (W, H)
    = Ok (center_x, center_y,
          half_extent anchor_scale stride_x octave_scale
            (fst (compute_aspect_ratio aspect)) H,
          half_extent anchor_scale stride_y octave_scale
            (snd (compute_aspect_ratio aspect)) W) /\
    length center_x = (length y * length x)%nat /\
    length center_y = (length y * length x)%nat /\
    forall i j : nat, (i < length y)%nat -> (j < length x)%nat ->
      nth (i * length x + j) center_x NaN = fdiv (nth j x NaN) (of_int H) /\
      nth (i * length x + j) center_y NaN = fdiv (nth i y NaN) (of_int W).
Proof.
  intros Ex Ey. unfold compute_box_coordinates, half_extent.
  destruct (compute_aspect_ratio aspect) as [aspect_x aspect_y].
  rewrite Ex, Ey. cbn [bind fst snd].
  assert (Lx : length (flatten (fst (np_meshgrid x y)))
               = (length y * length x)%nat).
  { unfold flatten, np_meshgrid. cbn [fst].
    rewrite (length_concat_uniform _ (length x))
      by now apply Forall_map_const.
    now rewrite length_map. }
  assert (Ly : length (flatten (snd (np_meshgrid x y)))
               = (length y * length x)%nat).
  { unfold flatten, np_meshgrid. cbn [snd].
    rewrite (length_concat_uniform _ (length x))
      by (apply Forall_map_const; intros; now rewrite length_map).
    now rewrite length_map. }
  destruct (np_meshgrid x y) as [grid_x grid_y] eqn:Eg.
  cbn [fst snd] in Lx, Ly.
  do 2 eexists. split; [reflexivity|].
  split; [now rewrite length_map|]. split; [now rewrite length_map|].
  intros i j Hi Hj.
  destruct (nth_meshgrid x y i j NaN Hi Hj) as [Nx Ny].
  rewrite Eg in Nx, Ny. cbn [fst snd] in Nx, Ny.
  split.
  - rewrite (nth_map_lt _ _ _ NaN NaN) by (rewrite Lx; nia).
    now rewrite Nx.
  - rewrite (nth_map_lt _ _ _ NaN NaN) by (rewrite Ly; nia).
    now rewrite Ny.
Qed.

Lemma compute_box_coordinates_grid_witness :
  np_arange (fdiv (stride_of 512 64) (Fin 2)) (of_int 512) (stride_of 512 64)
  = Ok (axis_centers (stride_of 512 64) 64) /\
  exists center_x center_y,
    compute_box_coordinates (stride_of 512 64) (stride_of 512 64) (Fin 0)
      (Fin 2) (Fin 4) (512, 512)
    = Ok (center_x, center_y,
          half_extent (Fin 4) (stride_of 512 64) (Fin 0)
            (fst (compute_aspect_ratio (Fin 2))) 512,
          half_extent (Fin 4) (stride_of 512 64) (Fin 0)
            (snd (compute_aspect_ratio (Fin 2))) 512) /\
    length center_x = (64 * 64)%nat /\
    length center_y = (64 * 64)%nat /\
    forall i j : nat, (i < 64)%nat -> (j < 64)%nat ->
      nth (i * 64 + j) center_x NaN =
        fdiv (nth j (axis_centers (stride_of 512 64) 64) NaN) (of_int 512) /\
      nth (i * 64 + j) center_y NaN =
        fdiv (nth i (axis_centers (stride_of 512 64) 64) NaN) (of_int 512).
Proof.
  assert (E : np_arange (fdiv (stride_of 512 64) (Fin 2)) (of_int 512)
                (stride_of 512 64)
              = Ok (axis_centers (stride_of 512 64) 64))
    by (apply (np_arange_level 512 64); lia).
  split; [exact E|].
  pose proof (compute_box_coordinates_grid (stride_of 512 64)
                (stride_of 512 64) (Fin 0) (Fin 2) (Fin 4) 512 512 _ _ E E)
    as P.
  rewrite length_axis_centers in P. exact P.
Defined.
